(** * MedSurvive Pro: the filter-and-derive pipeline of [medsurvive_pro_app.py]

    A shallow embedding of the dashboard script.  The loaded table is a list
    of patient records (one per CSV row that survived [dropna]); a pandas
    Series is the list of one field's values, a boolean mask is a [list bool]
    and [data[mask]] is boolean indexing.  The widgets' return values are the
    script's inputs.  The estimators of lifelines and shap are not part of
    the repository: the script is parametrised by them. *)

From Stdlib Require Import List ZArith QArith Bool String Ascii Lia Lqa.
From Stdlib Require Import Permutation Sorted.
Import ListNotations.

Local Open Scope string_scope.
Local Open Scope Z_scope.

(** ** Data model *)

(** One row of [medsurvive_updated_synthetic_data.csv] after [dropna]:
    every field is present. *)
Record PatientRecord := mkPatient {
  patient_id : Z;
  age : Z;
  sex : string;
  diagnosis_code : string;
  treatment_type : string;
  duration : Z;
  event : bool
}.

Definition DataFrame := list PatientRecord.

(** The sidebar selections (lines 15-18). *)
Record FilterCriteria := mkCriteria {
  age_range : Z * Z;
  sex_filter : list string;
  diag_filter : list string;
  treatment_filter : list string
}.

Definition PatientRecord_eq_dec (r1 r2 : PatientRecord) : {r1 = r2} + {r1 <> r2}.
Proof.
  decide equality; auto using Z.eq_dec, string_dec, bool_dec.
Defined.

(** ** pandas primitives used by the script *)

Module Pandas.

(** [df.col]: the Series of one field. *)
Definition column {A} (f : PatientRecord -> A) (df : DataFrame) : list A :=
  map f df.

(** [Series.between(left, right)], inclusive on both ends (the default). *)
Definition between (s : list Z) (lo hi : Z) : list bool :=
  map (fun x => (lo <=? x) && (x <=? hi)) s.

(** One element of [Series.isin(values)]. *)
Definition isin1 (values : list string) (x : string) : bool :=
  existsb (String.eqb x) values.

(** [Series.isin(values)]. *)
Definition isin (s : list string) (values : list string) : list bool :=
  map (isin1 values) s.

(** [m1 & m2] on two boolean Series over the same index. *)
Fixpoint mask_and (m1 m2 : list bool) : list bool :=
  match m1, m2 with
  | a :: m1', b :: m2' => (a && b) :: mask_and m1' m2'
  | _, _ => []
  end.

(** [df[mask]]: the rows at which the mask is True, in the table's order. *)
Fixpoint boolean_index {A} (df : list A) (mask : list bool) : list A :=
  match df, mask with
  | r :: df', b :: mask' =>
      if b then r :: boolean_index df' mask' else boolean_index df' mask'
  | _, _ => []
  end.

(** [Series.unique()]: the distinct values in order of first appearance. *)
Fixpoint unique (s : list string) : list string :=
  match s with
  | [] => []
  | x :: s' => x :: filter (fun y => negb (String.eqb y x)) (unique s')
  end.

(** Insertion of a key into a list sorted by code point. *)
Fixpoint insert_sorted (x : string) (l : list string) : list string :=
  match l with
  | [] => [x]
  | y :: l' => if String.leb x y then x :: l else y :: insert_sorted x l'
  end.

(** [sorted(...)] on strings (also the key order of [groupby] and the level
    order of [get_dummies]). *)
Definition sorted (l : list string) : list string :=
  fold_right insert_sorted [] l.

(** [Series.min()] and [Series.max()] followed by [int(...)]: undefined on
    an empty Series ([int(nan)] raises). *)
Definition series_min (s : list Z) : option Z :=
  match s with
  | [] => None
  | x :: s' => Some (fold_left Z.min s' x)
  end.

Definition series_max (s : list Z) : option Z :=
  match s with
  | [] => None
  | x :: s' => Some (fold_left Z.max s' x)
  end.

End Pandas.

(** ** Filter Engine (lines 49-54) *)

(** The mask of lines 50-53: four column tests joined by [&]. *)
Definition filter_mask (table : DataFrame) (c : FilterCriteria) : list bool :=
  Pandas.mask_and
    (Pandas.mask_and
       (Pandas.mask_and
          (Pandas.between (Pandas.column age table) (fst (age_range c)) (snd (age_range c)))
          (Pandas.isin (Pandas.column sex table) (sex_filter c)))
       (Pandas.isin (Pandas.column diagnosis_code table) (diag_filter c)))
    (Pandas.isin (Pandas.column treatment_type table) (treatment_filter c)).

(** [filtered_data = data[...]]. *)
Definition apply_filters (table : DataFrame) (c : FilterCriteria) : DataFrame :=
  Pandas.boolean_index table (filter_mask table c).

(** The widest selection the sidebar offers for a table (lines 15-18): the
    slider's end points and every option of each multiselect. *)
Definition widest_criteria (table : DataFrame) : option FilterCriteria :=
  match Pandas.series_min (Pandas.column age table),
        Pandas.series_max (Pandas.column age table) with
  | Some lo, Some hi =>
      Some (mkCriteria (lo, hi)
              (Pandas.unique (Pandas.column sex table))
              (Pandas.unique (Pandas.column diagnosis_code table))
              (Pandas.unique (Pandas.column treatment_type table)))
  | _, _ => None
  end.

(** The row predicate the mask computes, as a proposition. *)
Definition accepts (c : FilterCriteria) (r : PatientRecord) : Prop :=
  (fst (age_range c) <= age r <= snd (age_range c)) /\
  In (sex r) (sex_filter c) /\
  In (diagnosis_code r) (diag_filter c) /\
  In (treatment_type r) (treatment_filter c).

(** The same predicate, one row at a time. *)
Definition row_mask (c : FilterCriteria) (r : PatientRecord) : bool :=
  (fst (age_range c) <=? age r) && (age r <=? snd (age_range c))
  && Pandas.isin1 (sex_filter c) (sex r)
  && Pandas.isin1 (diag_filter c) (diagnosis_code r)
  && Pandas.isin1 (treatment_filter c) (treatment_type r).

(** Python's order on strings: by code point. *)
Definition str_le (a b : string) : Prop := String.leb a b = true.

(** [Subseq l1 l2]: [l1] is [l2] with some elements removed, order kept. *)
Inductive Subseq {A} : list A -> list A -> Prop :=
| Subseq_nil : Subseq [] []
| Subseq_skip : forall x l1 l2, Subseq l1 l2 -> Subseq l1 (x :: l2)
| Subseq_keep : forall x l1 l2, Subseq l1 l2 -> Subseq (x :: l1) (x :: l2).

(** ** Survival curves and the external estimators *)

(** A Python exception, with the text [str(e)] gives. *)
Inductive Exn := Exception (msg : string).

Definition exn_msg (e : Exn) : string := let (msg) := e in msg.

(** [kmf.survival_function_]: the timeline (the frame's index) with the
    survival probability at each of its points. *)
Definition SurvivalFunction := list (Z * Q).

(** [go.Scatter(x=..., y=..., mode='lines', name=...)]. *)
Record Trace := mkTrace {
  trace_x : list Z;
  trace_y : list Q;
  trace_name : string
}.

(** The frame [pd.get_dummies] returns: column names and one list of cells
    per row (booleans as 0 and 1). *)
Record EncodedFrame := mkEncoded {
  enc_columns : list string;
  enc_rows : list (list Z)
}.

(** What the script calls in lifelines and shap.  None of it is repository
    code; every call may raise. *)
Class Externals := {
  (** a fitted [CoxPHFitter] *)
  CoxModel : Type;
  (** [KaplanMeierFitter().fit(durations, event_observed, label=...)] *)
  kmf_fit : list Z -> list bool -> string -> Exn + SurvivalFunction;
  (** [CoxPHFitter().fit(df, duration_col="duration", event_col="event")] *)
  cph_fit : EncodedFrame -> Exn + CoxModel;
  (** [cph.plot()] *)
  cph_plot : CoxModel -> Exn + unit;
  (** lines 110-112 on a [CoxPHFitter] that was fitted ([Some]) or not *)
  shap_summary_plot : option CoxModel -> EncodedFrame -> Exn + unit
}.

(** The fields [group_by] can name (line 70). *)
Inductive GroupField := by_sex | by_treatment_type | by_diagnosis_code.

Definition group_key (g : GroupField) : PatientRecord -> string :=
  match g with
  | by_sex => sex
  | by_treatment_type => treatment_type
  | by_diagnosis_code => diagnosis_code
  end.

(** [df.groupby(field)]: one [(name, grouped_df)] per distinct value, keys
    sorted ([sort=True] is the default), each group's rows in table order. *)
Definition groupby (g : GroupField) (df : DataFrame) : list (string * DataFrame) :=
  map (fun name => (name, filter (fun r => String.eqb (group_key g r) name) df))
      (Pandas.sorted (Pandas.unique (Pandas.column (group_key g) df))).

(** ** Risk Model Fitter: preprocessing (line 90) *)

(** A row of [filtered_data.drop(columns=["patient_id"])]. *)
Record CovariateRow := mkCovariates {
  cov_age : Z;
  cov_sex : string;
  cov_diagnosis_code : string;
  cov_treatment_type : string;
  cov_duration : Z;
  cov_event : bool
}.

Definition drop_patient_id (df : DataFrame) : list CovariateRow :=
  map (fun r => mkCovariates (age r) (sex r) (diagnosis_code r)
                             (treatment_type r) (duration r) (event r)) df.

Module GetDummies.

(** The levels of one categorical column, in sorted order. *)
Definition levels (s : list string) : list string :=
  Pandas.sorted (Pandas.unique s).

(** [drop_first=True]: the first level is the reference and gets no column. *)
Definition kept_levels (s : list string) : list string := tl (levels s).

(** The indicator columns of one field are named [field_level]. *)
Definition dummy_names (field : string) (s : list string) : list string :=
  map (fun lv => (field ++ "_" ++ lv)%string) (kept_levels s).

Definition dummy_cells (s : list string) (x : string) : list Z :=
  map (fun lv => Z.b2z (String.eqb x lv)) (kept_levels s).

(** Modelled from the spec: [pd.get_dummies(df, drop_first=True)] is pandas
    code, not under src/.  The numeric and boolean columns come first in
    their own order, then for each categorical column in turn one indicator
    per level in sorted order, the first level dropped. *)
Definition get_dummies_drop_first (df : list CovariateRow) : EncodedFrame :=
  let sexes := map cov_sex df in
  let diags := map cov_diagnosis_code df in
  let treats := map cov_treatment_type df in
  mkEncoded
    (["age"; "duration"; "event"]
       ++ dummy_names "sex" sexes
       ++ dummy_names "diagnosis_code" diags
       ++ dummy_names "treatment_type" treats)%list
    (map (fun r =>
            [cov_age r; cov_duration r; Z.b2z (cov_event r)]
              ++ dummy_cells sexes (cov_sex r)
              ++ dummy_cells diags (cov_diagnosis_code r)
              ++ dummy_cells treats (cov_treatment_type r))%list df).

End GetDummies.

(** The covariates of an encoded frame: every column but the duration and
    the event column. *)
Definition n_covariates (enc : EncodedFrame) : nat :=
  (List.length (enc_columns enc) - 2)%nat.

Definition distinct_rows (enc : EncodedFrame) : nat :=
  List.length (nodup (list_eq_dec Z.eq_dec) (enc_rows enc)).

(** The cell of a row under a column name (the first column of that name). *)
Fixpoint cell_of (columns : list string) (row : list Z) (name : string)
  : option Z :=
  match columns, row with
  | c :: columns', v :: row' =>
      if String.eqb c name then Some v else cell_of columns' row' name
  | _, _ => None
  end.

(** ** Treatment Lookup (lines 120-136) *)

Module PyDict.

(** A dict literal: keys in insertion order. *)
Definition dict (V : Type) := list (string * V).

(** [k in d] *)
Definition contains {V} (d : dict V) (k : string) : bool :=
  existsb (fun kv => String.eqb (fst kv) k) d.

(** [d[k]]: [None] stands for KeyError. *)
Fixpoint get {V} (d : dict V) (k : string) : option V :=
  match d with
  | [] => None
  | (k', v) :: d' => if String.eqb k' k then Some v else get d' k
  end.

Definition keys {V} (d : dict V) : list string := map fst d.

End PyDict.

(** Condition name, recommended treatments, suggested procedures. *)
Definition TreatmentEntry := (string * list string * list string)%type.

Definition diagnosis_map : PyDict.dict TreatmentEntry :=
  [ ("I10", ("Hypertension", ["ACE Inhibitors"; "Beta Blockers"], ["Blood Pressure Monitoring"]));
    ("E11", ("Type 2 Diabetes", ["Insulin"; "Metformin"], ["HbA1c Test"; "Retinal Screening"]));
    ("J44", ("COPD", ["Bronchodilators"; "Steroids"], ["Pulmonary Function Test"]));
    ("K21", ("GERD", ["Antacids"; "PPIs"], ["Endoscopy"]));
    ("N18", ("Chronic Kidney Disease", ["Dialysis"; "ACE Inhibitors"], ["Creatinine Test"; "GFR Measurement"]));
    ("F41", ("Anxiety Disorders", ["SSRIs"; "CBT"], ["Psychiatric Evaluation"]));
    ("M54", ("Back Pain", ["NSAIDs"; "Physical Therapy"], ["X-ray"; "MRI"]));
    ("R51", ("Headache", ["Analgesics"; "Triptans"], ["Neurological Exam"])) ]%string.

(** Lines 132-133: the membership test, then the indexing. *)
Definition treatment_lookup (selected_code : string) : Exn + option TreatmentEntry :=
  if PyDict.contains diagnosis_map selected_code then
    match PyDict.get diagnosis_map selected_code with
    | Some entry => inr (Some entry)
    | None => inl (Exception "KeyError")
    end
  else inr None.

(** ** Sidebar (lines 14-46) *)

(** The selection the widgets hold before the user touches them: the
    slider at (30, 70), every option of each multiselect. *)
Definition default_criteria (table : DataFrame) : FilterCriteria :=
  mkCriteria (30, 70)
    (Pandas.unique (Pandas.column sex table))
    (Pandas.unique (Pandas.column diagnosis_code table))
    (Pandas.unique (Pandas.column treatment_type table)).

Definition diag_info : PyDict.dict string :=
  [ ("I10", "Essential (primary) hypertension: high blood pressure with no identifiable cause.");
    ("E11", "Type 2 diabetes mellitus: chronic condition affecting the way the body processes blood sugar.");
    ("J44", "Chronic obstructive pulmonary disease (COPD): a group of lung conditions that cause breathing difficulties.");
    ("K21", "Gastroesophageal reflux disease (GERD): acid reflux that irritates the esophagus.");
    ("N18", "Chronic kidney disease: gradual loss of kidney function over time.");
    ("F41", "Anxiety disorders: a group of mental health disorders characterized by excessive fear or anxiety.");
    ("M54", "Back pain: pain in the back often due to musculoskeletal issues.");
    ("R51", "Headache: pain in any region of the head.") ].

Definition treatment_info : PyDict.dict string :=
  [ ("surgical", "Involves physical interventions such as operations or procedures.");
    ("medical", "Uses drugs or medications to treat conditions.");
    ("combined", "Uses both surgical and medical treatments for comprehensive care.");
    ("non-invasive", "Treatments that do not require entering the body or breaking the skin (e.g., therapy, lifestyle changes).") ].

(** Lines 36 and 46: the text of the box, [f"**{sel}** — {d[sel]}"]; the
    indexing raises KeyError on a missing key. *)
Definition glossary_line (d : PyDict.dict string) (sel : string) : Exn + string :=
  match PyDict.get d sel with
  | Some text => inr ("**" ++ sel ++ "** — " ++ text)
  | None => inl (Exception "KeyError")
  end.

(** Line 131: the options of the diagnosis selectbox. *)
Definition code_options (table : DataFrame) : list string :=
  Pandas.sorted (Pandas.unique (Pandas.column diagnosis_code table)).

(** What the two glossary selectboxes return in one run. *)
Record SidebarInputs := mkSidebarInputs {
  selected_diag_explain : string;
  selected_treatment_type : string
}.

(** ** The script as a program over its variables and its page *)

Section Script.

Context {X : Externals}.

(** What the script puts in the sidebar (lines 14-46). *)
Inductive SidebarWidget :=
| sb_title (body : string)
| sb_slider (label : string) (min_value max_value : Z) (value : Z * Z)
| sb_multiselect (label : string) (options default : list string)
| sb_markdown (body : string)
| sb_header (body : string)
| sb_selectbox (label : string) (options : list string)
| sb_info (body : string)
| sb_success (body : string).

(** What the script puts on the page, in order.  [st_warning] is Streamlit's
    warning box; the script has no call of it. *)
Inductive Element :=
| st_sidebar (w : SidebarWidget)
| st_title (body : string)
| st_subheader (body : string)
| st_dataframe (df : DataFrame)
| st_download_filtered_csv (df : DataFrame)
| st_plotly_chart (fig_km : list Trace)
| st_write_summary (m : CoxModel)
| st_pyplot
| st_download_cox_summary (m : CoxModel)
| st_error (body : string)
| st_warning (body : string)
| st_markdown (body : string).

(** The module-level variables the stages read and assign ([None]: the
    name is not bound yet), and the page rendered so far.  [cph] is bound
    to a fitter as soon as line 91 ran, fitted or not. *)
Record Env := mkEnv {
  data : DataFrame;
  filtered_data : option DataFrame;
  data_encoded : option EncodedFrame;
  cph : option (option CoxModel);
  page : list Element
}.

(** What the widgets return in one run. *)
Record Inputs := mkInputs {
  criteria : FilterCriteria;
  show_filtered_data : bool;
  group_by : option GroupField;
  show_shap : bool;
  selected_code : option string
}.

(** Statements: they update the variables and the page, and finish or raise. *)
Definition Script (A : Type) : Type := Env -> Env * (Exn + A).

Definition ret {A} (a : A) : Script A := fun env => (env, inr a).

Definition bind {A B} (m : Script A) (k : A -> Script B) : Script B :=
  fun env =>
    match m env with
    | (env', inl e) => (env', inl e)
    | (env', inr a) => k a env'
    end.

(** A call into a library: no access to the script's variables. *)
Definition call {A} (r : Exn + A) : Script A := fun env => (env, r).

(** [try: body except Exception as e: handler e] *)
Definition try_except {A} (body : Script A) (handler : Exn -> Script A) : Script A :=
  fun env =>
    match body env with
    | (env', inl e) => handler e env'
    | (env', inr a) => (env', inr a)
    end.

(** Reading a variable: NameError while it is unbound. *)
Definition read_var {A} (name : string) (get : Env -> option A) : Script A :=
  fun env =>
    match get env with
    | Some v => (env, inr v)
    | None => (env, inl (Exception ("name '" ++ name ++ "' is not defined")))
    end.

Definition emit (el : Element) : Script unit :=
  fun env =>
    (mkEnv (data env) (filtered_data env) (data_encoded env) (cph env)
           (page env ++ [el]), inr tt).

Definition assign_filtered_data (df : DataFrame) : Script unit :=
  fun env =>
    (mkEnv (data env) (Some df) (data_encoded env) (cph env) (page env), inr tt).

Definition assign_data_encoded (enc : EncodedFrame) : Script unit :=
  fun env =>
    (mkEnv (data env) (filtered_data env) (Some enc) (cph env) (page env), inr tt).

Definition assign_cph (fitter : option CoxModel) : Script unit :=
  fun env =>
    (mkEnv (data env) (filtered_data env) (data_encoded env) (Some fitter)
           (page env), inr tt).

End Script.

Notation "x <- m ;; k" := (bind m (fun x => k))
  (at level 61, m at next level, right associativity).
Notation "m ;;; k" := (bind m (fun _ => k))
  (at level 61, right associativity).

Section Stages.

Context {X : Externals}.

(** Lines 49-54. *)
Definition filter_stage (inp : Inputs) : Script unit :=
  fun env => assign_filtered_data (apply_filters (data env) (criteria inp)) env.

(** Lines 57-66. *)
Definition table_stage (inp : Inputs) : Script unit :=
  emit (st_title "🩺 MedSurvive Pro: Survival & Risk Insights") ;;;
  df <- read_var "filtered_data" filtered_data ;;
  (if show_filtered_data inp then emit (st_dataframe df) else ret tt) ;;;
  emit (st_download_filtered_csv df).

(** [go.Scatter(x=kmf.survival_function_.index,
    y=kmf.survival_function_[label], mode='lines', name=label)] *)
Definition scatter (sf : SurvivalFunction) (label : string) : Trace :=
  mkTrace (map fst sf) (map snd sf) label.

(** The loop of lines 75-78: one fit and one trace per group, in order. *)
Fixpoint fit_groups (groups : list (string * DataFrame)) : Exn + list Trace :=
  match groups with
  | [] => inr []
  | (name, grouped_df) :: rest =>
      match kmf_fit (Pandas.column duration grouped_df)
                    (Pandas.column event grouped_df) name with
      | inl e => inl e
      | inr sf =>
          match fit_groups rest with
          | inl e => inl e
          | inr traces => inr (scatter sf name :: traces)
          end
      end
  end.

(** A trace is the fit of its group: the group's key for a name, the
    timeline of the fit for x and its survival probabilities for y. *)
Definition fitted (grp : string * DataFrame) (tr : Trace) : Prop :=
  exists sf,
    kmf_fit (Pandas.column duration (snd grp)) (Pandas.column event (snd grp))
            (fst grp) = inr sf
    /\ trace_name tr = fst grp
    /\ trace_x tr = map fst sf
    /\ trace_y tr = map snd sf.

(** The fitter returns on every non-empty sample. *)
Definition fits_non_empty : Prop :=
  forall durations events label,
    durations <> [] -> exists sf, kmf_fit durations events label = inr sf.

(** Lines 74-82: the traces [fig_km] holds when the chart is drawn. *)
Definition survival_estimator (subset : DataFrame) (group_by : option GroupField)
  : Exn + list Trace :=
  match group_by with
  | Some g => fit_groups (groupby g subset)
  | None =>
      match kmf_fit (Pandas.column duration subset)
                    (Pandas.column event subset) "All Patients" with
      | inl e => inl e
      | inr sf => inr [scatter sf "All Patients"]
      end
  end.

(** Lines 69-85. *)
Definition km_stage (inp : Inputs) : Script unit :=
  emit (st_subheader "📈 Kaplan–Meier Survival Curve") ;;;
  df <- read_var "filtered_data" filtered_data ;;
  fig_km <- call (survival_estimator df (group_by inp)) ;;
  emit (st_plotly_chart fig_km).

(** Line 90. *)
Definition preprocess (subset : DataFrame) : EncodedFrame :=
  GetDummies.get_dummies_drop_first (drop_patient_id subset).

(** Lines 88-104. *)
Definition cox_stage : Script unit :=
  emit (st_subheader "📊 Cox Proportional Hazards Model") ;;;
  try_except
    (df <- read_var "filtered_data" filtered_data ;;
     assign_data_encoded (preprocess df) ;;;
     assign_cph None ;;;
     m <- call (cph_fit (preprocess df)) ;;
     assign_cph (Some m) ;;;
     emit (st_write_summary m) ;;;
     call (cph_plot m) ;;;
     emit st_pyplot ;;;
     emit (st_download_cox_summary m))
    (fun e => emit (st_error ("Error fitting Cox model: " ++ exn_msg e))).

(** Lines 107-115. *)
Definition shap_stage (inp : Inputs) : Script unit :=
  if show_shap inp then
    emit (st_subheader "🧠 Feature Importance (SHAP Values)") ;;;
    try_except
      (fitter <- read_var "cph" cph ;;
       enc <- read_var "data_encoded" data_encoded ;;
       call (shap_summary_plot fitter enc) ;;;
       emit st_pyplot)
      (fun e => emit (st_error ("SHAP error: " ++ exn_msg e)))
  else ret tt.

(** Lines 118-136. *)
Definition treatment_stage (inp : Inputs) : Script unit :=
  emit (st_subheader "💊 Suggested Treatments") ;;;
  match selected_code inp with
  | None => ret tt
  | Some code =>
      found <- call (treatment_lookup code) ;;
      match found with
      | Some (name, treatments, procedures) =>
          emit (st_markdown ("**Condition:** " ++ name)) ;;;
          emit (st_markdown ("**Recommended Treatments:** "
                               ++ String.concat ", " treatments)) ;;;
          emit (st_markdown ("**Suggested Procedures:** "
                               ++ String.concat ", " procedures))
      | None => ret tt
      end
  end.

(** The views below the survival chart. *)
Definition after_km (inp : Inputs) : Script unit :=
  cox_stage ;;; shap_stage inp ;;; treatment_stage inp.

(** Lines 49-136: what a run does once the sidebar is built. *)
Definition main (inp : Inputs) : Script unit :=
  filter_stage inp ;;; table_stage inp ;;; km_stage inp ;;; after_km inp.

(** [int(data.age.min())] and [int(data.age.max())]: the minimum of an empty
    column is NaN, and [int] of it raises ValueError. *)
Definition int_of_bound (bound : option Z) : Exn + Z :=
  match bound with
  | Some v => inr v
  | None => inl (Exception "cannot convert float NaN to integer")
  end.

(** Lines 14-46: the sidebar.  The filter widgets' values are [criteria]. *)
Definition sidebar_stage (side : SidebarInputs) : Script unit :=
  emit (st_sidebar (sb_title "🔍 Filter Patients")) ;;;
  lo <- (fun env => call (int_of_bound
                            (Pandas.series_min (Pandas.column age (data env)))) env) ;;
  hi <- (fun env => call (int_of_bound
                            (Pandas.series_max (Pandas.column age (data env)))) env) ;;
  emit (st_sidebar (sb_slider "Age Range" lo hi (30, 70))) ;;;
  (fun env =>
     let options := Pandas.unique (Pandas.column sex (data env)) in
     emit (st_sidebar (sb_multiselect "Sex" options options)) env) ;;;
  (fun env =>
     let options := Pandas.unique (Pandas.column diagnosis_code (data env)) in
     emit (st_sidebar (sb_multiselect "Diagnosis Code" options options)) env) ;;;
  (fun env =>
     let options := Pandas.unique (Pandas.column treatment_type (data env)) in
     emit (st_sidebar (sb_multiselect "Treatment Type" options options)) env) ;;;
  emit (st_sidebar (sb_markdown "---")) ;;;
  emit (st_sidebar (sb_header "📖 Code & Treatment Info")) ;;;
  emit (st_sidebar (sb_selectbox "❓ What does this diagnosis code mean?"
                                 (PyDict.keys diag_info))) ;;;
  info <- call (glossary_line diag_info (selected_diag_explain side)) ;;
  emit (st_sidebar (sb_info info)) ;;;
  emit (st_sidebar (sb_selectbox "💊 What does this treatment type mean?"
                                 (PyDict.keys treatment_info))) ;;;
  success <- call (glossary_line treatment_info (selected_treatment_type side)) ;;
  emit (st_sidebar (sb_success success)).

(** One run of the script on a loaded table: lines 14-136. *)
Definition script (side : SidebarInputs) (inp : Inputs) : Script unit :=
  sidebar_stage side ;;; main inp.

(** The state a run starts from: the table is loaded, nothing else bound. *)
Definition loaded (table : DataFrame) : Env := mkEnv table None None None [].

(** A statement that leaves the loaded table and the filtered subset as they
    are and only adds to the page. *)
Definition frames {A} (m : Script A) : Prop :=
  forall env,
    data (fst (m env)) = data env
    /\ filtered_data (fst (m env)) = filtered_data env
    /\ exists added, page (fst (m env)) = (page env ++ added)%list.

(** Fewer distinct rows than encoded covariates. *)
Definition rank_deficient (subset : DataFrame) : Prop :=
  (List.length (nodup PatientRecord_eq_dec subset)
   < n_covariates (preprocess subset))%nat.

(** Section 4.4 on the delegated solver: the fit raises on an empty subset
    and on a rank-deficient one. *)
Definition fit_rejects_deficient : Prop :=
  forall subset,
    subset = [] \/ rank_deficient subset ->
    exists e, cph_fit (preprocess subset) = inl e.

End Stages.

(** ** Kaplan-Meier, as the specification describes the estimator *)

Module KaplanMeier.

(** One observation: its duration and whether the event was observed. *)
Definition Obs := (Z * bool)%type.

(** d_t: the events at time t. *)
Definition events_at (obs : list Obs) (t : Z) : nat :=
  List.length (filter (fun o => (fst o =? t) && snd o) obs).

(** n_t: the observations at risk just before t (durations >= t). *)
Definition at_risk (obs : list Obs) (t : Z) : nat :=
  List.length (filter (fun o => t <=? fst o) obs).

(** 1 - d_t/n_t *)
Definition factor (obs : list Obs) (t : Z) : Q :=
  (1 - (Z.of_nat (events_at obs t) # Pos.of_nat (at_risk obs t)))%Q.

(** The distinct event times. *)
Definition event_times (obs : list Obs) : list Z :=
  nodup Z.eq_dec (map fst (filter snd obs)).

Definition product (l : list Q) : Q := fold_right Qmult 1%Q l.

(** The product of [f] over the part of a list a test selects. *)
Definition selected_product (f : Z -> Q) (p : Z -> bool) (l : list Z) : Q :=
  product (map f (filter p l)).

(** Modelled from the spec: the estimator [KaplanMeierFitter] is lifelines
    code, not under src/.  Section 4.3: at each distinct event time t the
    survival probability multiplies by (1 - d_t/n_t); the curve is the step
    function whose value at t is the product over the event times up to t. *)
Definition survival (obs : list Obs) (t : Z) : Q :=
  selected_product (factor obs) (fun u => u <=? t) (event_times obs).

(** The value just before t: the product over the event times before t. *)
Definition survival_before (obs : list Obs) (t : Z) : Q :=
  selected_product (factor obs) (fun u => u <? t) (event_times obs).

Fixpoint insert_time (t : Z) (l : list Z) : list Z :=
  match l with
  | [] => [t]
  | u :: l' =>
      if t <? u then t :: l else if t =? u then l else u :: insert_time t l'
  end.

(** The points of the curve: time 0 and every duration, ascending. *)
Definition timeline (durations : list Z) : list Z :=
  fold_right insert_time [0] durations.

(** Modelled from the spec: the table a fit leaves in
    [survival_function_], one row per point of the timeline. *)
Definition fit (durations : list Z) (event_observed : list bool) : SurvivalFunction :=
  let obs := combine durations event_observed in
  map (fun t => (t, survival obs t)) (timeline durations).

End KaplanMeier.

(** Modelled from the spec: estimators that behave as sections 4.3 and 4.4
    say; the Kaplan-Meier fit always returns, the Cox fit raises on an empty
    or rank-deficient design and returns the design it was given otherwise. *)
Definition spec_externals : Externals := {|
  CoxModel := EncodedFrame;
  kmf_fit := fun durations events _ => inr (KaplanMeier.fit durations events);
  cph_fit := fun enc =>
    match enc_rows enc with
    | [] => inl (Exception "FitError: empty design")
    | _ :: _ =>
        if (distinct_rows enc <? n_covariates enc)%nat
        then inl (Exception "FitError: rank-deficient design")
        else inr enc
    end;
  cph_plot := fun _ => inr tt;
  shap_summary_plot := fun fitter _ =>
    match fitter with
    | Some _ => inr tt
    | None => inl (Exception "AttributionError")
    end
|}.

(** The estimators with the input check of lifelines: a Kaplan-Meier fit on
    an empty sample raises ValueError (no duration to work on), a fit on a
    non-empty sample returns the curve; the rest as in [spec_externals]. *)
Definition lifelines_externals : Externals := {|
  CoxModel := EncodedFrame;
  kmf_fit := fun durations events _ =>
    match durations with
    | [] => inl (Exception "Values must be numeric: no strings, datetimes, objects, etc.")
    | _ :: _ => inr (KaplanMeier.fit durations events)
    end;
  cph_fit := @cph_fit spec_externals;
  cph_plot := fun _ => inr tt;
  shap_summary_plot := @shap_summary_plot spec_externals
|}.

(** The four-row table of the end-to-end example. *)
Definition example_table : DataFrame :=
  [ mkPatient 1 20 "M" "I10" "medical" 5 true;
    mkPatient 2 40 "F" "E11" "surgical" 8 false;
    mkPatient 3 60 "M" "I10" "medical" 8 true;
    mkPatient 4 80 "F" "J44" "combined" 12 true ].

(** A selection whose sex multiselect was emptied. *)
Definition no_sex_criteria : FilterCriteria :=
  mkCriteria (30, 70) [] ["I10"; "E11"; "J44"] ["medical"; "surgical"; "combined"].

Definition example_criteria : FilterCriteria :=
  mkCriteria (30, 70) ["M"; "F"] ["I10"; "E11"; "J44"] ["medical"; "surgical"; "combined"].

(** ** Relations between selections *)

(** [narrower c1 c2]: everything [c1] accepts, [c2] accepts. *)
Definition narrower (c1 c2 : FilterCriteria) : Prop :=
  fst (age_range c2) <= fst (age_range c1) /\
  snd (age_range c1) <= snd (age_range c2) /\
  incl (sex_filter c1) (sex_filter c2) /\
  incl (diag_filter c1) (diag_filter c2) /\
  incl (treatment_filter c1) (treatment_filter c2).

(** The selection that accepts what both accept. *)
Definition both (c1 c2 : FilterCriteria) : FilterCriteria :=
  mkCriteria
    (Z.max (fst (age_range c1)) (fst (age_range c2)),
     Z.min (snd (age_range c1)) (snd (age_range c2)))
    (filter (Pandas.isin1 (sex_filter c2)) (sex_filter c1))
    (filter (Pandas.isin1 (diag_filter c2)) (diag_filter c1))
    (filter (Pandas.isin1 (treatment_filter c2)) (treatment_filter c1)).

(** The multiselect behind a grouping field. *)
Definition selection_of (g : GroupField) (c : FilterCriteria) : list string :=
  match g with
  | by_sex => sex_filter c
  | by_treatment_type => treatment_filter c
  | by_diagnosis_code => diag_filter c
  end.

(** ** Filter Engine: lemmas *)

Lemma isin1_In (values : list string) (x : string) :
  Pandas.isin1 values x = true <-> In x values.
Proof.
  unfold Pandas.isin1. rewrite existsb_exists. split.
  - intros [y [Hy Heq]]. apply String.eqb_eq in Heq. now subst.
  - intros H. exists x. split; [assumption | apply String.eqb_refl].
Qed.

Lemma row_mask_accepts (c : FilterCriteria) (r : PatientRecord) :
  row_mask c r = true <-> accepts c r.
Proof.
  unfold row_mask, accepts. rewrite !andb_true_iff, !isin1_In, !Z.leb_le.
  tauto.
Qed.

Lemma apply_filters_filter (table : DataFrame) (c : FilterCriteria) :
  apply_filters table c = filter (row_mask c) table.
Proof.
  unfold apply_filters, filter_mask, Pandas.between, Pandas.isin, Pandas.column.
  induction table as [|r table IH]; [reflexivity|].
  cbn [map Pandas.mask_and Pandas.boolean_index filter].
  rewrite IH. unfold row_mask. reflexivity.
Qed.

Lemma filter_Subseq {A} (p : A -> bool) (l : list A) : Subseq (filter p l) l.
Proof.
  induction l as [|x l IH]; cbn.
  - constructor.
  - destruct (p x); now constructor.
Qed.

Lemma count_occ_filter_true {A} (dec : forall x y : A, {x = y} + {x <> y})
      (p : A -> bool) (l : list A) (x : A) :
  p x = true -> count_occ dec (filter p l) x = count_occ dec l x.
Proof.
  intros Hx. induction l as [|y l IH]; cbn; [reflexivity|].
  destruct (dec y x) as [->|Hne].
  - rewrite Hx. cbn. destruct (dec x x); congruence.
  - destruct (p y); cbn; [destruct (dec y x); congruence | assumption].
Qed.

Lemma filter_all_true {A} (p : A -> bool) (l : list A) :
  (forall x, In x l -> p x = true) -> filter p l = l.
Proof.
  induction l as [|x l IH]; cbn; intros H; [reflexivity|].
  rewrite (H x (or_introl eq_refl)). f_equal. apply IH. intros y Hy. apply H. now right.
Qed.

Lemma filter_idem {A} (p : A -> bool) (l : list A) :
  filter p (filter p l) = filter p l.
Proof.
  apply filter_all_true. intros x Hx. now apply filter_In in Hx.
Qed.

(** ** Filter Engine: theorems *)

(** C1.  The filtered subset is a subsequence of the table (row order is
    kept); a row is in it exactly when it is in the table, its age lies in
    the inclusive range and its sex, diagnosis code and treatment type are
    each among the accepted values; every such row occurs in the subset as
    often as in the table. *)
Theorem apply_filters_exact (table : DataFrame) (c : FilterCriteria) :
  Subseq (apply_filters table c) table /\
  (forall r, In r (apply_filters table c) <-> In r table /\ accepts c r) /\
  (forall r, accepts c r ->
     count_occ PatientRecord_eq_dec (apply_filters table c) r
     = count_occ PatientRecord_eq_dec table r).
Proof.
  rewrite apply_filters_filter. split; [|split].
  - apply filter_Subseq.
  - intros r. rewrite filter_In, row_mask_accepts. reflexivity.
  - intros r Hacc. apply count_occ_filter_true. now apply row_mask_accepts.
Qed.

(** C7.  Filtering the filtered subset again with the same criteria gives
    the same subset. *)
Theorem apply_filters_idempotent (table : DataFrame) (c : FilterCriteria) :
  apply_filters (apply_filters table c) c = apply_filters table c.
Proof.
  rewrite !apply_filters_filter. apply filter_idem.
Qed.

(** The end-to-end example: ages 20, 40, 60, 80 under the range (30, 70)
    leave the rows of age 40 and 60, in that order. *)
Example apply_filters_example :
  map age (apply_filters example_table example_criteria) = [40; 60]
  /\ map patient_id (apply_filters example_table example_criteria) = [2; 3].
Proof.
  split; reflexivity.
Qed.

(** *** The widest selection *)

Lemma fold_left_min_le (s : list Z) (x : Z) :
  fold_left Z.min s x <= x /\ forall y, In y s -> fold_left Z.min s x <= y.
Proof.
  revert x. induction s as [|a s IH]; intros x; cbn.
  - split; [lia | contradiction].
  - destruct (IH (Z.min x a)) as [H1 H2]. split.
    + lia.
    + intros y [<-|Hy]; [lia | now apply H2].
Qed.

Lemma fold_left_max_ge (s : list Z) (x : Z) :
  x <= fold_left Z.max s x /\ forall y, In y s -> y <= fold_left Z.max s x.
Proof.
  revert x. induction s as [|a s IH]; intros x; cbn.
  - split; [lia | contradiction].
  - destruct (IH (Z.max x a)) as [H1 H2]. split.
    + lia.
    + intros y [<-|Hy]; [lia | now apply H2].
Qed.

Lemma series_min_le (s : list Z) (lo y : Z) :
  Pandas.series_min s = Some lo -> In y s -> lo <= y.
Proof.
  destruct s as [|x s]; cbn; [discriminate|].
  intros [= <-] Hin. destruct (fold_left_min_le s x) as [H1 H2].
  destruct Hin as [<-|Hy]; [assumption | now apply H2].
Qed.

Lemma series_max_ge (s : list Z) (hi y : Z) :
  Pandas.series_max s = Some hi -> In y s -> y <= hi.
Proof.
  destruct s as [|x s]; cbn; [discriminate|].
  intros [= <-] Hin. destruct (fold_left_max_ge s x) as [H1 H2].
  destruct Hin as [<-|Hy]; [assumption | now apply H2].
Qed.

Lemma unique_In (s : list string) (x : string) :
  In x (Pandas.unique s) <-> In x s.
Proof.
  induction s as [|y s IH]; cbn; [reflexivity|].
  rewrite filter_In, IH, negb_true_iff, String.eqb_neq.
  destruct (string_dec y x) as [->|Hne]; [tauto|].
  split; [tauto|]. intros [H|H]; [tauto | right; split; congruence].
Qed.

Lemma unique_NoDup (s : list string) : NoDup (Pandas.unique s).
Proof.
  induction s as [|y s IH]; cbn; constructor.
  - rewrite filter_In, negb_true_iff, String.eqb_neq. tauto.
  - now apply NoDup_filter.
Qed.

(** C10.  With the slider at its end points (the least and the greatest age
    of the table) and every option of the three multiselects chosen, the
    filter returns the table itself.  Only the empty table has no such
    selection (its ages have no least and greatest value), and every filter
    returns it unchanged. *)
Theorem apply_filters_widest (table : DataFrame) :
  (forall c, widest_criteria table = Some c -> apply_filters table c = table) /\
  (widest_criteria table = None ->
   table = [] /\ forall c, apply_filters table c = table).
Proof.
  unfold widest_criteria. split.
  - intros c.
    destruct (Pandas.series_min (Pandas.column age table)) as [lo|] eqn:Hlo;
      [|discriminate].
    destruct (Pandas.series_max (Pandas.column age table)) as [hi|] eqn:Hhi;
      [|discriminate].
    intros [= <-]. rewrite apply_filters_filter. apply filter_all_true.
    intros r Hr. apply row_mask_accepts. unfold accepts; cbn.
    rewrite !unique_In. unfold Pandas.column in *.
    repeat split; try (now apply in_map).
    + apply (series_min_le _ _ _ Hlo). now apply in_map.
    + apply (series_max_ge _ _ _ Hhi). now apply in_map.
  - destruct table as [|r table]; [|discriminate]. intros _. now split.
Qed.

Lemma apply_filters_widest_witness :
  exists c, widest_criteria example_table = Some c
            /\ fst (age_range c) = 20 /\ snd (age_range c) = 80
            /\ apply_filters example_table c = example_table.
Proof.
  eexists. split; [reflexivity|]. split; [reflexivity|]. split; [reflexivity|].
  apply (proj1 (apply_filters_widest example_table)). reflexivity.
Defined.

(** ** Treatment Lookup: theorems *)

Lemma contains_keys {V} (d : PyDict.dict V) (k : string) :
  PyDict.contains d k = true <-> In k (PyDict.keys d).
Proof.
  unfold PyDict.contains, PyDict.keys. rewrite existsb_exists, in_map_iff.
  split; intros [[k' v] [H1 H2]]; exists (k', v); cbn in *.
  - apply String.eqb_eq in H2. now split.
  - subst. split; [assumption | apply String.eqb_refl].
Qed.

Lemma get_of_contains {V} (d : PyDict.dict V) (k : string) :
  PyDict.contains d k = true -> exists v, PyDict.get d k = Some v.
Proof.
  induction d as [|[k' v] d IH]; cbn; [discriminate|].
  destruct (String.eqb k' k); cbn; [now exists v | assumption].
Qed.

Lemma get_of_key {V} (d : PyDict.dict V) (k : string) :
  In k (PyDict.keys d) -> exists v, PyDict.get d k = Some v /\ In (k, v) d.
Proof.
  induction d as [|[k' v] d IH]; cbn; [contradiction|].
  destruct (String.eqb_spec k' k) as [->|Hne].
  - intros _. exists v. split; [reflexivity | now left].
  - intros [Heq|Hin]; [contradiction|].
    destruct (IH Hin) as [v' [Hget Hin']]. exists v'. split; [assumption | now right].
Qed.

Lemma treatment_lookup_returns (code : string) :
  exists found, treatment_lookup code = inr found.
Proof.
  unfold treatment_lookup.
  destruct (PyDict.contains diagnosis_map code) eqn:Hc; [|now exists None].
  destruct (get_of_contains _ _ Hc) as [v ->]. now exists (Some v).
Qed.

(** C6.  Looking up "I10" gives the condition "Hypertension" with a
    non-empty list of treatments and a non-empty list of procedures; a code
    that is not a key of the map, "Z99" among them, gives "not found"; no
    lookup raises. *)
Theorem treatment_lookup_known_and_unknown :
  (exists treatments procedures,
      treatment_lookup "I10" = inr (Some ("Hypertension", treatments, procedures))
      /\ treatments <> [] /\ procedures <> []) /\
  treatment_lookup "Z99" = inr None /\
  (forall code, ~ In code (PyDict.keys diagnosis_map) ->
                treatment_lookup code = inr None) /\
  (forall code, exists found, treatment_lookup code = inr found).
Proof.
  split; [|split; [|split]].
  - exists ["ACE Inhibitors"; "Beta Blockers"], ["Blood Pressure Monitoring"].
    split; [reflexivity | split; discriminate].
  - reflexivity.
  - intros code Hnot. unfold treatment_lookup.
    destruct (PyDict.contains diagnosis_map code) eqn:Hc; [|reflexivity].
    apply contains_keys in Hc. contradiction.
  - apply treatment_lookup_returns.
Qed.

(** ** Survival Estimator: theorems *)

Lemma insert_sorted_perm (x : string) (l : list string) :
  Permutation (Pandas.insert_sorted x l) (x :: l).
Proof.
  induction l as [|y l IH]; cbn; [reflexivity|].
  destruct (String.leb x y); [reflexivity|].
  rewrite IH. apply perm_swap.
Qed.

Lemma sorted_perm (l : list string) : Permutation (Pandas.sorted l) l.
Proof.
  induction l as [|x l IH]; cbn; [reflexivity|].
  rewrite insert_sorted_perm. now constructor.
Qed.

Lemma insert_sorted_Sorted (x : string) (l : list string) :
  Sorted str_le l -> Sorted str_le (Pandas.insert_sorted x l).
Proof.
  induction l as [|y l IH]; cbn; intros Hs.
  - repeat constructor.
  - destruct (String.leb x y) eqn:Hxy.
    + constructor; [assumption | now constructor].
    + assert (Hyx : str_le y x).
      { destruct (String.leb_total x y) as [H|H]; [congruence | exact H]. }
      inversion Hs as [|? ? Hs' Hhd]; subst.
      constructor; [now apply IH|].
      destruct l as [|z l]; cbn; [now constructor|].
      destruct (String.leb x z); constructor; [assumption|].
      now inversion Hhd.
Qed.

Lemma sorted_Sorted (l : list string) : Sorted str_le (Pandas.sorted l).
Proof.
  induction l as [|x l IH]; cbn; [constructor | now apply insert_sorted_Sorted].
Qed.

Lemma groupby_keys (g : GroupField) (df : DataFrame) :
  map fst (groupby g df)
  = Pandas.sorted (Pandas.unique (Pandas.column (group_key g) df)).
Proof.
  unfold groupby. rewrite map_map. cbn. apply map_id.
Qed.

(** Every group holds the rows with its key, and at least one. *)
Lemma groupby_groups (g : GroupField) (df : DataFrame) :
  Forall (fun grp =>
            snd grp = filter (fun r => String.eqb (group_key g r) (fst grp)) df
            /\ snd grp <> [])
         (groupby g df).
Proof.
  unfold groupby. apply Forall_forall. intros [name rows] Hin.
  apply in_map_iff in Hin. destruct Hin as [k [[= <- <-] Hk]]. cbn.
  split; [reflexivity|].
  apply (Permutation_in _ (sorted_perm _)) in Hk. apply -> unique_In in Hk.
  unfold Pandas.column in Hk. apply in_map_iff in Hk.
  destruct Hk as [r [Hkey Hr]]. intros Hnil.
  assert (Hf : In r (filter (fun r0 => String.eqb (group_key g r0) k) df)).
  { apply filter_In. split; [assumption|]. now apply String.eqb_eq. }
  rewrite Hnil in Hf. contradiction.
Qed.

Section Estimator.

Context {X : Externals}.

Lemma fit_groups_fitted (groups : list (string * DataFrame)) :
  fits_non_empty ->
  Forall (fun grp => snd grp <> []) groups ->
  exists traces, fit_groups groups = inr traces /\ Forall2 fitted groups traces.
Proof.
  intros Hfit. induction groups as [|[name rows] groups IH]; intros Hne.
  - exists []. split; [reflexivity | constructor].
  - inversion Hne as [|? ? Hrows Hrest]; subst. cbn in Hrows.
    destruct (IH Hrest) as [traces [Hfg Hall]].
    destruct (Hfit (Pandas.column duration rows) (Pandas.column event rows) name)
      as [sf Hsf].
    { unfold Pandas.column. destruct rows; [contradiction | discriminate]. }
    exists (scatter sf name :: traces). cbn. rewrite Hsf, Hfg.
    split; [reflexivity|]. constructor; [|assumption].
    exists sf. cbn. auto.
Qed.

Lemma fitted_names (groups : list (string * DataFrame)) (traces : list Trace) :
  Forall2 fitted groups traces -> map trace_name traces = map fst groups.
Proof.
  induction 1 as [|grp tr groups traces [sf [_ [Hname _]]] _ IH]; cbn;
    [reflexivity | now rewrite IH, Hname].
Qed.

Lemma ungrouped_not_zero_curves (subset : DataFrame) :
  survival_estimator subset None <> inr [].
Proof.
  cbn. destruct (kmf_fit _ _ _); discriminate.
Qed.

End Estimator.

(** C3 (as the code has it).  Let the fitter return on every non-empty
    sample.  Without [group_by], on a non-empty subset the estimator returns
    exactly one curve, named "All Patients", whose x and y are the timeline
    and the survival probabilities of the fit to the durations and events of
    the whole subset; on any subset it returns nothing else when it returns.
    With [group_by], on every subset it returns one curve per distinct value
    of the field: as many curves as distinct values, named by the values in
    sorted order without repeats, each the fit to the non-empty group of rows
    holding its value. *)
Theorem survival_estimator_curves {X : Externals} (subset : DataFrame) :
  fits_non_empty ->
  (subset <> [] ->
   exists sf,
     kmf_fit (Pandas.column duration subset) (Pandas.column event subset)
             "All Patients" = inr sf
     /\ survival_estimator subset None
        = inr [mkTrace (map fst sf) (map snd sf) "All Patients"]) /\
  (forall traces,
      survival_estimator subset None = inr traces ->
      exists sf,
        kmf_fit (Pandas.column duration subset) (Pandas.column event subset)
                "All Patients" = inr sf
        /\ traces = [mkTrace (map fst sf) (map snd sf) "All Patients"]) /\
  (forall g,
      exists traces,
        survival_estimator subset (Some g) = inr traces
        /\ List.length traces
           = List.length (Pandas.unique (Pandas.column (group_key g) subset))
        /\ map trace_name traces
           = Pandas.sorted (Pandas.unique (Pandas.column (group_key g) subset))
        /\ NoDup (map trace_name traces)
        /\ Sorted str_le (map trace_name traces)
        /\ Forall2 fitted (groupby g subset) traces
        /\ Forall (fun grp =>
                     snd grp = filter (fun r => String.eqb (group_key g r) (fst grp))
                                      subset
                     /\ snd grp <> [])
                  (groupby g subset)).
Proof.
  intros Hfit. split; [|split].
  - intros Hne. cbn.
    destruct (Hfit (Pandas.column duration subset) (Pandas.column event subset)
                   "All Patients") as [sf Hsf].
    { unfold Pandas.column. destruct subset; [contradiction | discriminate]. }
    exists sf. now rewrite Hsf.
  - intros traces. cbn.
    destruct (kmf_fit _ _ _) as [e|sf]; [discriminate|].
    intros [= <-]. now exists sf.
  - intros g. pose proof (groupby_groups g subset) as Hgroups.
    destruct (fit_groups_fitted (groupby g subset) Hfit) as [traces [Hrun Hall]].
    { eapply Forall_impl; [|exact Hgroups]. now intros grp [_ H]. }
    pose proof (fitted_names _ _ Hall) as Hnames. rewrite groupby_keys in Hnames.
    exists traces. repeat split; try assumption.
    + rewrite <- (length_map trace_name), Hnames.
      apply Permutation_length, sorted_perm.
    + rewrite Hnames.
      apply (Permutation_NoDup (Permutation_sym (sorted_perm _))), unique_NoDup.
    + rewrite Hnames. apply sorted_Sorted.
Qed.

Lemma spec_externals_fits_non_empty : @fits_non_empty spec_externals.
Proof.
  intros durations events label _. now exists (KaplanMeier.fit durations events).
Defined.

Lemma survival_estimator_curves_witness :
  @fits_non_empty spec_externals /\
  apply_filters example_table example_criteria <> [] /\
  (exists sf,
      @survival_estimator spec_externals
        (apply_filters example_table example_criteria) None
      = inr [mkTrace (map fst sf) (map snd sf) "All Patients"]) /\
  exists traces,
    @survival_estimator spec_externals
      (apply_filters example_table example_criteria) (Some by_sex) = inr traces
    /\ map trace_name traces = ["F"; "M"].
Proof.
  assert (Hne : apply_filters example_table example_criteria <> [])
    by discriminate.
  split; [exact spec_externals_fits_non_empty|]. split; [exact Hne|].
  destruct (@survival_estimator_curves spec_externals
              (apply_filters example_table example_criteria)
              spec_externals_fits_non_empty) as [Hall [_ Hgrouped]].
  split.
  - destruct (Hall Hne) as [sf [_ Hrun]]. now exists sf.
  - destruct (Hgrouped by_sex) as [traces [Hrun [_ [Hnames _]]]].
    exists traces. split; [exact Hrun | exact Hnames].
Defined.

Lemma lifelines_externals_fits_non_empty : @fits_non_empty lifelines_externals.
Proof.
  intros durations events label Hne. cbn.
  destruct durations as [|d durations]; [contradiction|].
  now eexists.
Qed.

(** C3, as stated, fails on the empty subset without [group_by]: a fitter
    that returns on every non-empty sample and rejects the empty one, as
    lifelines does, makes line 80 raise, and no curve is produced. *)
Lemma ungrouped_empty_subset_raises :
  @fits_non_empty lifelines_externals /\
  apply_filters example_table no_sex_criteria = [] /\
  @survival_estimator lifelines_externals
    (apply_filters example_table no_sex_criteria) None
  = inl (Exception "Values must be numeric: no strings, datetimes, objects, etc.").
Proof.
  split; [exact lifelines_externals_fits_non_empty|]. split; reflexivity.
Qed.

Lemma filter_all_false {A} (p : A -> bool) (l : list A) :
  (forall x, In x l -> p x = false) -> filter p l = [].
Proof.
  induction l as [|x l IH]; cbn; intros H; [reflexivity|].
  rewrite (H x (or_introl eq_refl)). apply IH. intros y Hy. apply H. now right.
Qed.

Lemma apply_filters_empty_selection (table : DataFrame) (c : FilterCriteria) :
  sex_filter c = [] \/ diag_filter c = [] \/ treatment_filter c = [] ->
  apply_filters table c = [].
Proof.
  intros Hsel. rewrite apply_filters_filter. apply filter_all_false.
  intros r _. unfold row_mask.
  destruct Hsel as [-> | [-> | ->]]; cbn;
    rewrite ?andb_false_r; reflexivity.
Qed.

(** Without [group_by] nothing stands between the fitter and the script: an
    exception of the fit ends the run before the chart and the later views. *)
Lemma ungrouped_fit_exception_ends_run {X : Externals}
      (table : DataFrame) (inp : Inputs) (e : Exn) :
  group_by inp = None ->
  kmf_fit (Pandas.column duration (apply_filters table (criteria inp)))
          (Pandas.column event (apply_filters table (criteria inp)))
          "All Patients" = inl e ->
  snd (main inp (loaded table)) = inl e /\
  page (fst (main inp (loaded table)))
  = ([st_title "🩺 MedSurvive Pro: Survival & Risk Insights"]
       ++ (if show_filtered_data inp
           then [st_dataframe (apply_filters table (criteria inp))] else [])
       ++ [st_download_filtered_csv (apply_filters table (criteria inp));
           st_subheader "📈 Kaplan–Meier Survival Curve"])%list.
Proof.
  intros Hg Hfit.
  unfold main, filter_stage, table_stage, km_stage, survival_estimator, bind,
    emit, read_var, call, ret, assign_filtered_data, loaded.
  cbn [data filtered_data data_encoded cph page fst snd].
  destruct (show_filtered_data inp);
    cbn [data filtered_data data_encoded cph page fst snd];
    rewrite Hg, Hfit; split; reflexivity.
Qed.

(** C4.  The failing run: the Sex multiselect is emptied and every other
    widget is left as it is, so [group_by] is absent.  The filtered subset is
    empty and line 80 hands its empty columns to the fitter with nothing
    around the call: with the input check of lifelines the run raises, and
    the page ends at the survival heading, without a chart, a warning or any
    later view.  Whatever the fitter does, the ungrouped estimate of an empty
    subset is never zero curves, while the grouped one always is. *)
Theorem empty_selection_ungrouped_run_raises :
  let side := mkSidebarInputs "I10" "surgical" in
  let inp := mkInputs no_sex_criteria false None false (Some "E11") in
  apply_filters example_table (criteria inp) = [] /\
  snd (@script lifelines_externals side inp (loaded example_table))
  = inl (Exception "Values must be numeric: no strings, datetimes, objects, etc.") /\
  (exists sidebar,
      page (fst (@script lifelines_externals side inp (loaded example_table)))
      = (map st_sidebar sidebar
           ++ [st_title "🩺 MedSurvive Pro: Survival & Risk Insights";
               st_download_filtered_csv [];
               st_subheader "📈 Kaplan–Meier Survival Curve"])%list) /\
  ~ (exists X : Externals, @survival_estimator X [] None = inr []) /\
  (forall (X : Externals) (g : GroupField),
      @survival_estimator X [] (Some g) = inr []).
Proof.
  cbv zeta. split; [reflexivity|]. split; [reflexivity|]. split; [|split].
  - exists [sb_title "🔍 Filter Patients";
            sb_slider "Age Range" 20 80 (30, 70);
            sb_multiselect "Sex" ["M"; "F"] ["M"; "F"];
            sb_multiselect "Diagnosis Code" ["I10"; "E11"; "J44"]
                           ["I10"; "E11"; "J44"];
            sb_multiselect "Treatment Type" ["medical"; "surgical"; "combined"]
                           ["medical"; "surgical"; "combined"];
            sb_markdown "---";
            sb_header "📖 Code & Treatment Info";
            sb_selectbox "❓ What does this diagnosis code mean?"
                         (PyDict.keys diag_info);
            sb_info "**I10** — Essential (primary) hypertension: high blood pressure with no identifiable cause.";
            sb_selectbox "💊 What does this treatment type mean?"
                         (PyDict.keys treatment_info);
            sb_success "**surgical** — Involves physical interventions such as operations or procedures."].
    reflexivity.
  - intros [X H]. exact (ungrouped_not_zero_curves _ H).
  - reflexivity.
Qed.

(** ** The stages as statements: what they leave alone *)

Section Frame.

Context {X : Externals}.

Lemma frames_ret {A} (a : A) : frames (ret a).
Proof.
  intros env. cbn. repeat split. exists []. now rewrite app_nil_r.
Qed.

Lemma frames_call {A} (r : Exn + A) : frames (call r).
Proof.
  intros env. cbn. repeat split. exists []. now rewrite app_nil_r.
Qed.

Lemma frames_read_var {A} (name : string) (get : Env -> option A) :
  frames (read_var name get).
Proof.
  intros env. unfold read_var. destruct (get env); cbn; repeat split;
    exists []; now rewrite app_nil_r.
Qed.

Lemma frames_emit (el : Element) : frames (emit el).
Proof.
  intros env. cbn. repeat split. now exists [el].
Qed.

Lemma frames_assign_data_encoded (enc : EncodedFrame) :
  frames (assign_data_encoded enc).
Proof.
  intros env. cbn. repeat split. exists []. now rewrite app_nil_r.
Qed.

Lemma frames_assign_cph (fitter : option CoxModel) : frames (assign_cph fitter).
Proof.
  intros env. cbn. repeat split. exists []. now rewrite app_nil_r.
Qed.

Lemma frames_bind {A B} (m : Script A) (k : A -> Script B) :
  frames m -> (forall a, frames (k a)) -> frames (bind m k).
Proof.
  intros Hm Hk env. unfold bind.
  destruct (Hm env) as [Hd [Hf [added Hp]]].
  destruct (m env) as [env1 [e|a]]; cbn in *.
  - repeat split; try assumption. now exists added.
  - destruct (Hk a env1) as [Hd' [Hf' [added' Hp']]].
    repeat split; try congruence.
    exists (added ++ added')%list. now rewrite Hp', Hp, app_assoc.
Qed.

Lemma frames_try_except {A} (body : Script A) (handler : Exn -> Script A) :
  frames body -> (forall e, frames (handler e)) -> frames (try_except body handler).
Proof.
  intros Hm Hk env. unfold try_except.
  destruct (Hm env) as [Hd [Hf [added Hp]]].
  destruct (body env) as [env1 [e|a]]; cbn in *.
  - destruct (Hk e env1) as [Hd' [Hf' [added' Hp']]].
    repeat split; try congruence.
    exists (added ++ added')%list. now rewrite Hp', Hp, app_assoc.
  - repeat split; try assumption. now exists added.
Qed.

End Frame.

Create HintDb frame.

#[local] Hint Resolve frames_ret frames_call frames_read_var frames_emit
  frames_assign_data_encoded frames_assign_cph : frame.

(** Walks a stage statement by statement. *)
Ltac frame :=
  repeat first
    [ apply frames_bind
    | apply frames_try_except
    | progress intros
    | solve [auto with frame]
    | match goal with
      | |- frames (if ?b then _ else _) => destruct b
      | |- frames (match ?x with _ => _ end) => destruct x
      end ].

Section StageFrames.

Context {X : Externals}.

Lemma frames_table_stage (inp : Inputs) : frames (table_stage inp).
Proof. unfold table_stage. frame. Qed.

Lemma frames_km_stage (inp : Inputs) : frames (km_stage inp).
Proof. unfold km_stage. frame. Qed.

Lemma frames_cox_stage : frames cox_stage.
Proof. unfold cox_stage. frame. Qed.

Lemma frames_shap_stage (inp : Inputs) : frames (shap_stage inp).
Proof. unfold shap_stage. frame. Qed.

Lemma frames_treatment_stage (inp : Inputs) : frames (treatment_stage inp).
Proof. unfold treatment_stage. frame. Qed.

Lemma frames_after_km (inp : Inputs) : frames (after_km inp).
Proof.
  unfold after_km.
  auto using frames_bind, frames_cox_stage, frames_shap_stage,
    frames_treatment_stage.
Qed.

(** C9.  A run leaves the loaded table as it was and binds [filtered_data]
    to the filter's result, whether the run finishes or raises; the filter
    stage does not touch the table, and every later stage leaves both the
    table and the filtered subset as they are. *)
Theorem main_keeps_tables (inp : Inputs) (env : Env) :
  data (fst (main inp env)) = data env /\
  filtered_data (fst (main inp env))
  = Some (apply_filters (data env) (criteria inp)) /\
  data (fst (filter_stage inp env)) = data env /\
  frames (table_stage inp) /\ frames (km_stage inp) /\ frames cox_stage /\
  frames (shap_stage inp) /\ frames (treatment_stage inp).
Proof.
  assert (Hrest : frames (table_stage inp ;;; km_stage inp ;;; after_km inp)).
  { auto using frames_bind, frames_table_stage, frames_km_stage, frames_after_km. }
  assert (Hmain : main inp env
                  = (table_stage inp ;;; km_stage inp ;;; after_km inp)
                      (fst (filter_stage inp env))).
  { reflexivity. }
  destruct (Hrest (fst (filter_stage inp env))) as [Hd [Hf _]].
  rewrite Hmain, Hd, Hf. cbn.
  auto 10 using frames_table_stage, frames_km_stage, frames_cox_stage,
    frames_shap_stage, frames_treatment_stage.
Qed.

End StageFrames.

(** ** Risk Model Fitter: a failed fit *)

Section FitFailure.

Context {X : Externals}.

Lemma cox_stage_returns (env : Env) : snd (cox_stage env) = inr tt.
Proof.
  unfold cox_stage, bind, try_except, emit, read_var, call,
    assign_data_encoded, assign_cph.
  cbn [data filtered_data data_encoded cph page fst snd].
  destruct (filtered_data env) as [df|]; [|reflexivity].
  cbn [data filtered_data data_encoded cph page fst snd].
  destruct (cph_fit (preprocess df)) as [e|m]; [reflexivity|].
  cbn [data filtered_data data_encoded cph page fst snd].
  destruct (cph_plot m) as [e|[]]; reflexivity.
Qed.

Lemma cox_stage_fit_raises (env : Env) (subset : DataFrame) (e : Exn) :
  filtered_data env = Some subset ->
  cph_fit (preprocess subset) = inl e ->
  page (fst (cox_stage env))
  = (page env ++ [st_subheader "📊 Cox Proportional Hazards Model";
                  st_error ("Error fitting Cox model: " ++ exn_msg e)])%list.
Proof.
  intros Hsub Hfit.
  unfold cox_stage, bind, try_except, emit, read_var, call,
    assign_data_encoded, assign_cph.
  cbn [data filtered_data data_encoded cph page fst snd]. rewrite Hsub.
  cbn [data filtered_data data_encoded cph page fst snd]. rewrite Hfit.
  cbn [data filtered_data data_encoded cph page fst snd].
  now rewrite <- app_assoc.
Qed.

Lemma shap_stage_returns (inp : Inputs) (env : Env) :
  snd (shap_stage inp env) = inr tt.
Proof.
  unfold shap_stage, bind, try_except, emit, read_var, call, ret.
  destruct (show_shap inp); [|reflexivity].
  cbn [data filtered_data data_encoded cph page fst snd].
  destruct (cph env) as [fitter|]; [|reflexivity].
  destruct (data_encoded env) as [enc|]; [|reflexivity].
  cbn [data filtered_data data_encoded cph page fst snd].
  destruct (shap_summary_plot fitter enc) as [e|[]]; reflexivity.
Qed.

Lemma treatment_stage_returns (inp : Inputs) (env : Env) :
  snd (treatment_stage inp env) = inr tt.
Proof.
  unfold treatment_stage, bind, emit, call, ret.
  destruct (selected_code inp) as [code|]; [|reflexivity].
  destruct (treatment_lookup_returns code) as [found ->].
  destruct found as [[[name treatments] procedures]|]; reflexivity.
Qed.

Lemma bind_returns {A B} (m : Script A) (k : A -> Script B) (env : Env) (a : A) (b : B) :
  snd (m env) = inr a ->
  (forall env', snd (k a env') = inr b) ->
  snd (bind m k env) = inr b.
Proof.
  unfold bind. destruct (m env) as [env1 [e|a']]; cbn; [discriminate|].
  intros [= ->] Hk. apply Hk.
Qed.

Lemma after_km_returns (inp : Inputs) (env : Env) :
  snd (after_km inp env) = inr tt.
Proof.
  unfold after_km.
  apply (bind_returns _ _ _ tt); [apply cox_stage_returns|]. intros env1.
  apply (bind_returns _ _ _ tt); [apply shap_stage_returns|]. intros env2.
  apply treatment_stage_returns.
Qed.

Lemma after_km_page (inp : Inputs) (env : Env) :
  exists added,
    page (fst (after_km inp env)) = (page (fst (cox_stage env)) ++ added)%list.
Proof.
  unfold after_km, bind at 1.
  pose proof (cox_stage_returns env) as Hret.
  destruct (cox_stage env) as [env1 [e|[]]]; cbn in *; [discriminate|].
  assert (Hf : frames (shap_stage inp ;;; treatment_stage inp)).
  { auto using frames_bind, frames_shap_stage, frames_treatment_stage. }
  destruct (Hf env1) as [_ [_ Hpage]]. exact Hpage.
Qed.

(** C5.  Let the fit raise on every empty or rank-deficient subset.  For
    such a subset the Cox stage catches the exception: it finishes without
    raising, puts the message "Error fitting Cox model: ..." on the page
    under its heading and nothing else, and leaves the table and the subset
    alone; the views after it run to completion with the message still
    displayed. *)
Theorem fit_failure_is_displayed (inp : Inputs) (env : Env) (subset : DataFrame) :
  fit_rejects_deficient ->
  filtered_data env = Some subset ->
  subset = [] \/ rank_deficient subset ->
  exists e,
    cph_fit (preprocess subset) = inl e /\
    snd (cox_stage env) = inr tt /\
    page (fst (cox_stage env))
    = (page env ++ [st_subheader "📊 Cox Proportional Hazards Model";
                    st_error ("Error fitting Cox model: " ++ exn_msg e)])%list /\
    data (fst (cox_stage env)) = data env /\
    filtered_data (fst (cox_stage env)) = filtered_data env /\
    snd (after_km inp env) = inr tt /\
    exists added,
      page (fst (after_km inp env))
      = (page env ++ [st_subheader "📊 Cox Proportional Hazards Model";
                      st_error ("Error fitting Cox model: " ++ exn_msg e)]
           ++ added)%list.
Proof.
  intros Hrej Hsub Hdef. destruct (Hrej subset Hdef) as [e He]. exists e.
  pose proof (cox_stage_fit_raises env subset e Hsub He) as Hpage.
  destruct (frames_cox_stage env) as [Hd [Hf _]].
  repeat (split; [first [assumption | apply cox_stage_returns
                        | apply after_km_returns]|]).
  destruct (after_km_page inp env) as [added Hadded].
  exists added. now rewrite Hadded, Hpage, <- app_assoc.
Qed.

End FitFailure.

Lemma nodup_map_length {A B} (decA : forall x y : A, {x = y} + {x <> y})
      (decB : forall x y : B, {x = y} + {x <> y}) (f : A -> B) (l : list A) :
  (List.length (nodup decB (map f l)) <= List.length (nodup decA l))%nat.
Proof.
  induction l as [|a l IH]; cbn; [lia|].
  destruct (in_dec decB (f a) (map f l)) as [Hin|Hnin].
  - destruct (in_dec decA a l); cbn; lia.
  - destruct (in_dec decA a l) as [Hin'|Hnin']; cbn; [|lia].
    exfalso. apply Hnin. now apply in_map.
Qed.

Lemma spec_externals_rejects_deficient : @fit_rejects_deficient spec_externals.
Proof.
  intros subset [->|Hdef].
  - now exists (Exception "FitError: empty design").
  - unfold cph_fit, spec_externals.
    destruct (enc_rows (preprocess subset)) as [|row rows] eqn:Hrows.
    + now exists (Exception "FitError: empty design").
    + assert (Hlt : (distinct_rows (preprocess subset)
                     <? n_covariates (preprocess subset))%nat = true).
      { apply Nat.ltb_lt. unfold rank_deficient in Hdef.
        eapply Nat.le_lt_trans; [|exact Hdef].
        unfold distinct_rows, preprocess, GetDummies.get_dummies_drop_first,
          drop_patient_id. cbn [enc_rows]. rewrite map_map.
        apply nodup_map_length. }
      rewrite Hlt. now exists (Exception "FitError: rank-deficient design").
Qed.

Lemma fit_failure_is_displayed_witness :
  let env := @mkEnv spec_externals example_table (Some example_table) None None [] in
  @fit_rejects_deficient spec_externals /\
  rank_deficient example_table /\
  exists e,
    snd (@cox_stage spec_externals env) = inr tt /\
    page (fst (@cox_stage spec_externals env))
    = [st_subheader "📊 Cox Proportional Hazards Model";
       st_error ("Error fitting Cox model: " ++ exn_msg e)].
Proof.
  intros env.
  assert (Hdef : rank_deficient example_table) by (vm_compute; lia).
  split; [exact spec_externals_rejects_deficient|]. split; [exact Hdef|].
  destruct (@fit_failure_is_displayed spec_externals
              (mkInputs example_criteria false None false None) env example_table
              spec_externals_rejects_deficient eq_refl (or_intror Hdef))
    as [e [_ [Hret [Hpage _]]]].
  exists e. split; [exact Hret | exact Hpage].
Defined.

(** ** Risk Model Fitter: preprocessing *)

Lemma cox_stage_data_encoded {X : Externals} (env : Env) (subset : DataFrame) :
  filtered_data env = Some subset ->
  data_encoded (fst (cox_stage env)) = Some (preprocess subset).
Proof.
  intros Hsub.
  unfold cox_stage, bind, try_except, emit, read_var, call,
    assign_data_encoded, assign_cph.
  cbn [data filtered_data data_encoded cph page fst snd]. rewrite Hsub.
  cbn [data filtered_data data_encoded cph page fst snd].
  destruct (cph_fit (preprocess subset)) as [e|m]; [reflexivity|].
  cbn [data filtered_data data_encoded cph page fst snd].
  destruct (cph_plot m) as [e|[]]; reflexivity.
Qed.

Lemma kept_levels_length (s : list string) :
  List.length (GetDummies.kept_levels s)
  = (List.length (Pandas.unique s) - 1)%nat.
Proof.
  unfold GetDummies.kept_levels, GetDummies.levels.
  rewrite <- (Permutation_length (sorted_perm (Pandas.unique s))).
  destruct (Pandas.sorted (Pandas.unique s)); cbn; lia.
Qed.

Lemma Sorted_tl {A} (R : A -> A -> Prop) (l : list A) :
  Sorted R l -> Sorted R (tl l).
Proof.
  destruct l; cbn; [trivial | now inversion 1].
Qed.

Lemma patient_id_not_dummy (field : string) (s : list string) :
  field = "sex" \/ field = "diagnosis_code" \/ field = "treatment_type" ->
  ~ In "patient_id" (GetDummies.dummy_names field s).
Proof.
  unfold GetDummies.dummy_names. intros Hfield Hin.
  apply in_map_iff in Hin. destruct Hin as [lv [Heq _]].
  destruct Hfield as [-> | [-> | ->]]; discriminate.
Qed.

Lemma encoded_row_width (subset : DataFrame) :
  Forall (fun row => List.length row
                     = List.length (enc_columns (preprocess subset)))
         (enc_rows (preprocess subset)).
Proof.
  unfold preprocess, GetDummies.get_dummies_drop_first. cbn [enc_rows enc_columns].
  apply Forall_forall. intros row Hrow. apply in_map_iff in Hrow.
  destruct Hrow as [r [<- _]].
  unfold GetDummies.dummy_names, GetDummies.dummy_cells.
  rewrite !length_app, !length_map. reflexivity.
Qed.

(** ** Kaplan-Meier: the curve of the estimator *)

Section KaplanMeierCurve.

Import KaplanMeier.

Local Open Scope Q_scope.

Lemma events_le_at_risk (obs : list Obs) (t : Z) :
  (events_at obs t <= at_risk obs t)%nat.
Proof.
  unfold events_at, at_risk. induction obs as [|[d ev] obs IH]; cbn; [lia|].
  destruct (Z.eqb_spec d t) as [->|Hne]; cbn.
  - rewrite Z.leb_refl. destruct ev; cbn; lia.
  - destruct (t <=? d)%Z; cbn; lia.
Qed.

Lemma ratio_bounds (d n : nat) :
  (d <= n)%nat -> 0 <= (Z.of_nat d # Pos.of_nat n) <= 1.
Proof.
  intros Hdn. unfold Qle. cbn. destruct n as [|n].
  - assert (d = 0%nat) as -> by lia. cbn. lia.
  - rewrite <- Pos.of_nat_succ, Zpos_P_of_succ_nat. lia.
Qed.

Lemma factor_bounds (obs : list Obs) (t : Z) : 0 <= factor obs t <= 1.
Proof.
  unfold factor.
  pose proof (ratio_bounds _ _ (events_le_at_risk obs t)). lra.
Qed.

Lemma factor_no_event (obs : list Obs) (t : Z) :
  events_at obs t = 0%nat -> factor obs t == 1.
Proof.
  unfold factor. intros ->. unfold Qeq. cbn. lia.
Qed.

Lemma product_cons (x : Q) (l : list Q) : product (x :: l) = x * product l.
Proof. reflexivity. Qed.

Lemma unit_interval_mult (x a b : Q) :
  0 <= x <= 1 -> 0 <= a -> a <= b -> b <= 1 ->
  0 <= x * a /\ x * a <= x * b /\ x * b <= 1 /\ x * a <= b.
Proof.
  intros [H0 H1] Ha Hab Hb. repeat split; nra.
Qed.

Lemma selected_product_monotone (f : Z -> Q) (p q : Z -> bool) (l : list Z) :
  (forall u, 0 <= f u <= 1) ->
  (forall u, p u = true -> q u = true) ->
  0 <= selected_product f q l
  /\ selected_product f q l <= selected_product f p l
  /\ selected_product f p l <= 1.
Proof.
  intros Hf Hpq. unfold selected_product.
  induction l as [|x l [IH0 [IHle IH1]]]; cbn [map filter].
  - cbn. repeat split; lra.
  - pose proof (Hpq x) as Hpqx.
    destruct (unit_interval_mult (f x) _ _ (Hf x) IH0 IHle IH1)
      as [H1 [H2 [H3 H4]]].
    destruct (p x) eqn:Hp.
    + rewrite (Hpqx eq_refl). cbn [map]. rewrite !product_cons. now repeat split.
    + destruct (q x); cbn [map]; rewrite ?product_cons; now repeat split.
Qed.

Lemma selected_product_step (f : Z -> Q) (t : Z) (l : list Z) :
  NoDup l ->
  selected_product f (fun u => u <=? t)%Z l
  == selected_product f (fun u => u <? t)%Z l
     * (if in_dec Z.eq_dec t l then f t else 1).
Proof.
  unfold selected_product. induction 1 as [|x l Hnin Hnd IH]; cbn [filter].
  - cbn. lra.
  - destruct (Z.eq_dec x t) as [->|Hne].
    + rewrite Z.leb_refl, Z.ltb_irrefl. cbn [map]. rewrite product_cons, IH.
      destruct (in_dec Z.eq_dec t l) as [Hin|_]; [contradiction|].
      destruct (in_dec Z.eq_dec t (t :: l)) as [_|Hn]; [lra|].
      exfalso. apply Hn. now left.
    + assert (Hlt : (x <=? t)%Z = (x <? t)%Z).
      { destruct (Z.leb_spec x t), (Z.ltb_spec x t); try reflexivity; lia. }
      rewrite Hlt.
      assert (Hdec : (if in_dec Z.eq_dec t (x :: l) then f t else 1)
                     = (if in_dec Z.eq_dec t l then f t else 1)).
      { destruct (in_dec Z.eq_dec t (x :: l)) as [[Heq|Hin]|Hn],
          (in_dec Z.eq_dec t l) as [Hin'|Hn']; try reflexivity;
          try congruence; try contradiction.
        exfalso. apply Hn. now right. }
      rewrite Hdec. destruct (x <? t)%Z; cbn [map]; [|exact IH].
      rewrite !product_cons, IH. lra.
Qed.

Lemma events_at_zero (obs : list Obs) (t : Z) :
  ~ In t (event_times obs) -> events_at obs t = 0%nat.
Proof.
  unfold event_times, events_at. rewrite nodup_In. intros Hnin.
  induction obs as [|[d ev] obs IH]; cbn; [reflexivity|].
  destruct ev; cbn in *.
  - destruct (Z.eqb_spec d t) as [->|Hne]; [tauto|]. cbn. apply IH. tauto.
  - rewrite andb_false_r. cbn. apply IH. assumption.
Qed.

Lemma event_times_In (obs : list Obs) (t : Z) :
  In t (event_times obs) <-> In (t, true) obs.
Proof.
  unfold event_times. rewrite nodup_In, in_map_iff. split.
  - intros [[d ev] [Hd Hin]]. apply filter_In in Hin. cbn in *.
    destruct Hin as [Hin ->]. now subst.
  - intros Hin. exists (t, true). split; [reflexivity|].
    apply filter_In. now split.
Qed.

End KaplanMeierCurve.

Section KaplanMeierTheorems.

Import KaplanMeier.

Local Open Scope Q_scope.

Lemma survival_bounds (obs : list Obs) (t : Z) : 0 <= survival obs t <= 1.
Proof.
  destruct (selected_product_monotone (factor obs) (fun u => u <=? t)%Z
              (fun u => u <=? t)%Z (event_times obs) (factor_bounds obs))
    as [H0 [_ H1]]; [trivial | now split].
Qed.

Lemma survival_step (obs : list Obs) (t : Z) :
  survival obs t == survival_before obs t * factor obs t.
Proof.
  unfold survival, survival_before.
  rewrite (selected_product_step (factor obs) t (event_times obs))
    by apply NoDup_nodup.
  destruct (in_dec Z.eq_dec t (event_times obs)) as [_|Hnin]; [reflexivity|].
  now rewrite (factor_no_event obs t (events_at_zero obs t Hnin)).
Qed.

(** C2 (as the estimator of section 4.3 has it).  For the observations of any
    subset, the survival function takes values in [0,1] and never increases
    with time; it is 1 at time 0 when every observed event has a positive
    duration; at every time t its value is the value just before t times
    (1 - d_t/n_t), with d_t the events at t and n_t the observations whose
    duration is at least t, so it does not move where no event is observed;
    a censored observation adds nothing to any d_t and counts in n_t exactly
    for the times up to its duration. *)
Theorem kaplan_meier_curve (obs : list Obs) :
  (forall t, 0 <= survival obs t <= 1) /\
  (forall t t', (t <= t')%Z -> survival obs t' <= survival obs t) /\
  ((forall d, In (d, true) obs -> (0 < d)%Z) -> survival obs 0 == 1) /\
  (forall t,
      survival obs t
      == survival_before obs t
         * (1 - (Z.of_nat (events_at obs t) # Pos.of_nat (at_risk obs t)))) /\
  (forall t, ~ In (t, true) obs -> survival obs t == survival_before obs t) /\
  (forall c t,
      events_at ((c, false) :: obs) t = events_at obs t
      /\ at_risk ((c, false) :: obs) t
         = (at_risk obs t + (if (t <=? c)%Z then 1 else 0))%nat).
Proof.
  split; [|split; [|split; [|split; [|split]]]].
  - apply survival_bounds.
  - intros t t' Hle.
    destruct (selected_product_monotone (factor obs) (fun u => u <=? t)%Z
                (fun u => u <=? t')%Z (event_times obs) (factor_bounds obs))
      as [_ [H _]]; [|exact H].
    intros u Hu. apply Z.leb_le in Hu. apply Z.leb_le. lia.
  - intros Hpos. unfold survival, selected_product.
    rewrite filter_all_false; [reflexivity|].
    intros u Hu. apply event_times_In in Hu. apply Hpos in Hu.
    apply Z.leb_gt. exact Hu.
  - intros t. apply survival_step.
  - intros t Hnot. rewrite survival_step, factor_no_event; [lra|].
    apply events_at_zero. now rewrite event_times_In.
  - intros c t. unfold events_at, at_risk. cbn [filter fst snd].
    rewrite andb_false_r. destruct (t <=? c)%Z; cbn [List.length]; lia.
Qed.

Lemma kaplan_meier_curve_witness :
  let obs := [(5, true); (8, false); (8, true)]%Z in
  (forall d, In (d, true) obs -> (0 < d)%Z) /\ survival obs 0 == 1.
Proof.
  intros obs.
  assert (Hpos : forall d, In (d, true) obs -> (0 < d)%Z).
  { intros d [H|[H|[H|[]]]]; inversion H; reflexivity. }
  split; [exact Hpos|].
  exact (proj1 (proj2 (proj2 (kaplan_meier_curve obs))) Hpos).
Defined.

(** C2, as stated, fails at time 0 when an event is observed at duration 0:
    a single record with duration 0 and an observed event has d_0 = n_0 = 1,
    so the curve is 0 at time 0. *)
Lemma kaplan_meier_event_at_zero :
  ~ (survival [(0%Z, true)] 0 == 1).
Proof.
  vm_compute. discriminate.
Qed.

End KaplanMeierTheorems.

(** * Further properties of the script *)

(** ** Filter Engine: how selections compose *)

Lemma filter_filter_andb {A} (p q : A -> bool) (l : list A) :
  filter q (filter p l) = filter (fun x => p x && q x) l.
Proof.
  induction l as [|x l IH]; cbn; [reflexivity|].
  destruct (p x); cbn; [destruct (q x)|]; now rewrite IH.
Qed.

Lemma filter_Subseq_weaker {A} (p q : A -> bool) (l : list A) :
  (forall x, p x = true -> q x = true) -> Subseq (filter p l) (filter q l).
Proof.
  intros Hpq. induction l as [|x l IH]; cbn; [constructor|].
  destruct (p x) eqn:Hp.
  - rewrite (Hpq x Hp). now constructor.
  - destruct (q x); [now constructor | assumption].
Qed.

Lemma accepts_both (c1 c2 : FilterCriteria) (r : PatientRecord) :
  accepts (both c1 c2) r <-> accepts c1 r /\ accepts c2 r.
Proof.
  unfold accepts, both. cbn [age_range sex_filter diag_filter treatment_filter fst snd].
  rewrite !filter_In, !isin1_In. split.
  - intros [Hage [[? ?] [[? ?] [? ?]]]]. repeat split; trivial; lia.
  - intros [[Ha1 [? [? ?]]] [Ha2 [? [? ?]]]]. repeat split; trivial; lia.
Qed.

Lemma row_mask_both (c1 c2 : FilterCriteria) (r : PatientRecord) :
  row_mask (both c1 c2) r = row_mask c1 r && row_mask c2 r.
Proof.
  apply eq_iff_eq_true.
  rewrite andb_true_iff, !row_mask_accepts. apply accepts_both.
Qed.

Lemma accepts_narrower (c1 c2 : FilterCriteria) (r : PatientRecord) :
  narrower c1 c2 -> accepts c1 r -> accepts c2 r.
Proof.
  unfold narrower, accepts, incl.
  intros [Hlo [Hhi [Hs [Hd Ht]]]] [Hage [? [? ?]]].
  repeat split; auto; lia.
Qed.

(** Filtering by one selection and then by another gives what the selection
    accepting what both accept gives in one pass, and the order of the two
    passes does not matter. *)
Theorem apply_filters_compose (table : DataFrame) (c1 c2 : FilterCriteria) :
  apply_filters (apply_filters table c1) c2 = apply_filters table (both c1 c2) /\
  apply_filters (apply_filters table c1) c2
  = apply_filters (apply_filters table c2) c1.
Proof.
  rewrite !apply_filters_filter, !filter_filter_andb. split.
  - apply filter_ext. intros r. now rewrite row_mask_both.
  - apply filter_ext. intros r. apply andb_comm.
Qed.

(** Narrowing the selection can only remove rows: the subset of the narrower
    selection is a subsequence of the subset of the wider one, and it is what
    the narrower selection keeps of that subset. *)
Theorem apply_filters_narrower (table : DataFrame) (c1 c2 : FilterCriteria) :
  narrower c1 c2 ->
  Subseq (apply_filters table c1) (apply_filters table c2) /\
  apply_filters (apply_filters table c2) c1 = apply_filters table c1.
Proof.
  intros Hn.
  assert (Himp : forall r, row_mask c1 r = true -> row_mask c2 r = true).
  { intros r. rewrite !row_mask_accepts. now apply accepts_narrower. }
  rewrite !apply_filters_filter. split.
  - now apply filter_Subseq_weaker.
  - rewrite filter_filter_andb. apply filter_ext. intros r.
    destruct (row_mask c1 r) eqn:H1.
    + now rewrite (Himp r H1).
    + apply andb_false_r.
Qed.

Lemma apply_filters_narrower_witness :
  narrower example_criteria (mkCriteria (0, 100) ["M"; "F"; "X"]
                               ["I10"; "E11"; "J44"; "K21"]
                               ["medical"; "surgical"; "combined"]) /\
  Subseq (apply_filters example_table example_criteria)
         (apply_filters example_table
            (mkCriteria (0, 100) ["M"; "F"; "X"] ["I10"; "E11"; "J44"; "K21"]
                        ["medical"; "surgical"; "combined"])).
Proof.
  assert (Hn : narrower example_criteria
                 (mkCriteria (0, 100) ["M"; "F"; "X"] ["I10"; "E11"; "J44"; "K21"]
                             ["medical"; "surgical"; "combined"])).
  { unfold narrower, incl. cbn. repeat split; try lia; intros a H; tauto. }
  split; [exact Hn|].
  exact (proj1 (apply_filters_narrower example_table _ _ Hn)).
Defined.

(** The filter looks at one row at a time: the subset of two tables put one
    after the other is the subset of the first followed by the subset of the
    second. *)
Theorem apply_filters_app (t1 t2 : DataFrame) (c : FilterCriteria) :
  apply_filters (t1 ++ t2)%list c
  = (apply_filters t1 c ++ apply_filters t2 c)%list.
Proof.
  rewrite !apply_filters_filter. apply filter_app.
Qed.

(** With the widgets untouched (slider at (30, 70), every option of each
    multiselect chosen) the three categorical tests accept every row of the
    table, and the subset is exactly the rows aged 30 to 70. *)
Theorem apply_filters_default (table : DataFrame) :
  apply_filters table (default_criteria table)
  = filter (fun r => (30 <=? age r) && (age r <=? 70)) table.
Proof.
  rewrite apply_filters_filter. apply filter_ext_in. intros r Hr.
  unfold row_mask, default_criteria.
  cbn [age_range sex_filter diag_filter treatment_filter fst snd].
  assert (Hs : Pandas.isin1 (Pandas.unique (Pandas.column sex table)) (sex r) = true).
  { apply isin1_In, unique_In. now apply in_map. }
  assert (Hd : Pandas.isin1 (Pandas.unique (Pandas.column diagnosis_code table))
                            (diagnosis_code r) = true).
  { apply isin1_In, unique_In. now apply in_map. }
  assert (Ht : Pandas.isin1 (Pandas.unique (Pandas.column treatment_type table))
                            (treatment_type r) = true).
  { apply isin1_In, unique_In. now apply in_map. }
  now rewrite Hs, Hd, Ht, !andb_true_r.
Qed.

(** ** Survival Estimator: the groups *)

Lemma filter_disjoint_perm {A} (p q : A -> bool) (l : list A) :
  (forall x, p x = true -> q x = false) ->
  Permutation (filter p l ++ filter q l) (filter (fun x => p x || q x) l).
Proof.
  intros Hdis. induction l as [|x l IH]; cbn; [constructor|].
  destruct (p x) eqn:Hp; cbn.
  - rewrite (Hdis x Hp). now constructor.
  - destruct (q x); cbn; [|assumption].
    rewrite <- Permutation_middle. now constructor.
Qed.

Lemma parts_perm {A} (key : A -> string) (ks : list string) (l : list A) :
  NoDup ks ->
  Permutation
    (List.concat (map (fun k => filter (fun r => String.eqb (key r) k) l) ks))
    (filter (fun r => Pandas.isin1 ks (key r)) l).
Proof.
  induction 1 as [|k ks Hnin Hnd IH]; cbn [map List.concat].
  - rewrite filter_all_false; [constructor | reflexivity].
  - rewrite IH.
    rewrite (filter_disjoint_perm (fun r => String.eqb (key r) k)
                                  (fun r => Pandas.isin1 ks (key r))).
    + reflexivity.
    + intros r Hr. apply String.eqb_eq in Hr.
      destruct (Pandas.isin1 ks (key r)) eqn:Hin; [|reflexivity].
      apply isin1_In in Hin. congruence.
Qed.

Lemma sorted_unique_NoDup (s : list string) :
  NoDup (Pandas.sorted (Pandas.unique s)).
Proof.
  apply (Permutation_NoDup (Permutation_sym (sorted_perm _))), unique_NoDup.
Qed.

Lemma sorted_unique_In (s : list string) (x : string) :
  In x (Pandas.sorted (Pandas.unique s)) <-> In x s.
Proof.
  split; intros H.
  - apply -> unique_In. exact (Permutation_in _ (sorted_perm _) H).
  - apply (Permutation_in _ (Permutation_sym (sorted_perm _))).
    now apply <- unique_In.
Qed.

(** The groups of [groupby] split the table: put one after the other they
    hold every row of the table exactly once; each group keeps the table's
    row order and holds only rows with its own key; no two groups share a
    key. *)
Theorem groupby_partition (g : GroupField) (df : DataFrame) :
  Permutation (List.concat (map snd (groupby g df))) df /\
  Forall (fun grp =>
            Subseq (snd grp) df
            /\ Forall (fun r => group_key g r = fst grp) (snd grp))
         (groupby g df) /\
  NoDup (map fst (groupby g df)).
Proof.
  split; [|split].
  - unfold groupby. rewrite map_map. cbn [snd].
    rewrite parts_perm by apply sorted_unique_NoDup.
    rewrite filter_all_true; [reflexivity|].
    intros r Hr. apply isin1_In, sorted_unique_In.
    unfold Pandas.column. now apply in_map.
  - unfold groupby. apply Forall_forall. intros [name rows] Hin.
    apply in_map_iff in Hin. destruct Hin as [k [[= <- <-] _]]. cbn. split.
    + apply filter_Subseq.
    + apply Forall_forall. intros r Hr. apply filter_In in Hr.
      now apply String.eqb_eq.
  - rewrite groupby_keys. apply sorted_unique_NoDup.
Qed.

Section GroupedNames.

Context {X : Externals}.

Lemma fit_groups_names (groups : list (string * DataFrame)) (traces : list Trace) :
  fit_groups groups = inr traces -> map trace_name traces = map fst groups.
Proof.
  revert traces. induction groups as [|[name rows] groups IH]; cbn; intros traces.
  - now intros [= <-].
  - destruct (kmf_fit _ _ name) as [e|sf]; [discriminate|].
    destruct (fit_groups groups) as [e|rest]; [discriminate|].
    intros [= <-]. cbn. now rewrite (IH rest eq_refl).
Qed.

(** Grouped curves exist only for what is selected and present: whenever the
    grouped estimate of a filtered subset returns, every curve is named by a
    value that is chosen in the multiselect of the grouping field and that
    some accepted row of the table carries. *)
Theorem grouped_curves_are_selected
        (table : DataFrame) (c : FilterCriteria) (g : GroupField)
        (traces : list Trace) :
  survival_estimator (apply_filters table c) (Some g) = inr traces ->
  Forall (fun tr =>
            In (trace_name tr) (selection_of g c)
            /\ exists r, In r table /\ accepts c r
                         /\ group_key g r = trace_name tr)
         traces.
Proof.
  cbn [survival_estimator]. intros Hrun.
  apply fit_groups_names in Hrun. rewrite groupby_keys in Hrun.
  apply Forall_forall. intros tr Htr.
  assert (Hname : In (trace_name tr) (map trace_name traces)) by now apply in_map.
  rewrite Hrun in Hname. apply -> sorted_unique_In in Hname.
  unfold Pandas.column in Hname. apply in_map_iff in Hname.
  destruct Hname as [r [Hkey Hr]].
  rewrite apply_filters_filter in Hr. apply filter_In in Hr.
  destruct Hr as [Hin Hacc]. apply row_mask_accepts in Hacc.
  split.
  - rewrite <- Hkey. destruct Hacc as [_ [Hs [Hd Ht]]].
    destruct g; assumption.
  - exists r. auto.
Qed.

End GroupedNames.

Lemma grouped_curves_are_selected_witness :
  exists traces,
    @survival_estimator spec_externals
      (apply_filters example_table example_criteria) (Some by_diagnosis_code)
    = inr traces
    /\ Forall (fun tr => In (trace_name tr) (diag_filter example_criteria)) traces
    /\ map trace_name traces = ["E11"; "I10"].
Proof.
  eexists. split; [reflexivity|]. split; [|reflexivity].
  refine (Forall_impl _ _
            (@grouped_curves_are_selected spec_externals example_table
               example_criteria by_diagnosis_code _ eq_refl)).
  intros tr [H _]. exact H.
Defined.

(** ** The run as a whole *)

Section Run.

Context {X : Externals}.

Lemma cox_stage_page_head (env : Env) :
  exists added,
    page (fst (cox_stage env))
    = (page env ++ st_subheader "📊 Cox Proportional Hazards Model" :: added)%list.
Proof.
  unfold cox_stage. unfold bind at 1. cbn [emit fst snd].
  match goal with
  | |- context [try_except ?b ?h] =>
      assert (Hf : frames (try_except b h)) by frame;
      set (rest := try_except b h) in *
  end.
  match goal with
  | |- context [rest ?e] => destruct (Hf e) as [_ [_ [added Hadded]]]
  end.
  exists added. rewrite Hadded. cbn [page]. now rewrite <- app_assoc.
Qed.

(** Lines 49-136 from any state: they raise exactly when the estimator
    raises, and then stop below the survival heading; otherwise they finish,
    the chart holds the estimator's curves and the Cox view follows it. *)
Lemma main_from (inp : Inputs) (env : Env) :
  let subset := apply_filters (data env) (criteria inp) in
  let top :=
    ([st_title "🩺 MedSurvive Pro: Survival & Risk Insights"]
       ++ (if show_filtered_data inp then [st_dataframe subset] else [])
       ++ [st_download_filtered_csv subset;
           st_subheader "📈 Kaplan–Meier Survival Curve"])%list in
  match survival_estimator subset (group_by inp) with
  | inl e =>
      snd (main inp env) = inl e
      /\ page (fst (main inp env)) = (page env ++ top)%list
  | inr traces =>
      snd (main inp env) = inr tt
      /\ exists below,
          page (fst (main inp env))
          = (page env ++ top ++ st_plotly_chart traces
                 :: st_subheader "📊 Cox Proportional Hazards Model" :: below)%list
  end.
Proof.
  intros subset top. subst top.
  unfold main, filter_stage, table_stage, km_stage.
  unfold bind, emit, read_var, call, ret, assign_filtered_data.
  cbn [data filtered_data data_encoded cph page fst snd]. fold subset.
  destruct (show_filtered_data inp);
    cbn [data filtered_data data_encoded cph page fst snd];
    destruct (survival_estimator subset (group_by inp)) as [e|traces];
    cbn [data filtered_data data_encoded cph page fst snd];
    try (split; [reflexivity|]; rewrite <- !app_assoc; reflexivity).
  - match goal with
    | |- context [after_km inp ?env1] =>
        pose proof (after_km_returns inp env1) as Hret;
        destruct (after_km_page inp env1) as [added Hadded];
        destruct (cox_stage_page_head env1) as [added' Hhead];
        destruct (after_km inp env1) as [env2 [e|[]]]; cbn in Hret;
          [discriminate|]
    end.
    split; [reflexivity|]. cbn [fst] in *.
    rewrite Hadded, Hhead. cbn [page]. rewrite <- !app_assoc. cbn [app].
    now eexists.
  - match goal with
    | |- context [after_km inp ?env1] =>
        pose proof (after_km_returns inp env1) as Hret;
        destruct (after_km_page inp env1) as [added Hadded];
        destruct (cox_stage_page_head env1) as [added' Hhead];
        destruct (after_km inp env1) as [env2 [e|[]]]; cbn in Hret;
          [discriminate|]
    end.
    split; [reflexivity|]. cbn [fst] in *.
    rewrite Hadded, Hhead. cbn [page]. rewrite <- !app_assoc. cbn [app].
    now eexists.
Qed.

(** On a table with a row the sidebar is built without an exception, for
    any option the two glossary selectboxes can return; it adds sidebar
    widgets only and leaves the variables alone. *)
Lemma sidebar_stage_returns (side : SidebarInputs) (env : Env) :
  data env <> [] ->
  In (selected_diag_explain side) (PyDict.keys diag_info) ->
  In (selected_treatment_type side) (PyDict.keys treatment_info) ->
  exists sidebar,
    Forall (fun el => exists w, el = st_sidebar w) sidebar
    /\ sidebar_stage side env
       = (mkEnv (data env) (filtered_data env) (data_encoded env) (cph env)
                (page env ++ sidebar), inr tt).
Proof.
  intros Hne Hdiag Htreat.
  destruct (get_of_key _ _ Hdiag) as [info [Hinfo _]].
  destruct (get_of_key _ _ Htreat) as [success [Hsuccess _]].
  unfold sidebar_stage, glossary_line. rewrite Hinfo, Hsuccess.
  destruct env as [table subset encoded fitter shown]. cbn in Hne.
  destruct table as [|r table]; [contradiction|].
  cbv beta iota zeta
      delta [bind emit call int_of_bound data filtered_data data_encoded cph
             page fst snd Pandas.series_min Pandas.series_max Pandas.column map].
  rewrite <- !app_assoc. cbn [app].
  eexists. split; [|reflexivity].
  repeat (constructor; [now eexists|]). constructor.
Qed.

(** A run of the script lets two exceptions through and no other: on an
    empty table the ValueError of line 15, raised when the slider's bounds
    are computed, with nothing but the sidebar title shown; on a table with
    a row the exception of the survival fit, if it raises, with the page
    ending at the survival heading.  Otherwise the run finishes, the chart
    holds exactly the estimator's curves and the Cox view follows it. *)
Theorem script_outcome (side : SidebarInputs) (inp : Inputs) (table : DataFrame) :
  In (selected_diag_explain side) (PyDict.keys diag_info) ->
  In (selected_treatment_type side) (PyDict.keys treatment_info) ->
  let run := script side inp (loaded table) in
  let subset := apply_filters table (criteria inp) in
  let top :=
    ([st_title "🩺 MedSurvive Pro: Survival & Risk Insights"]
       ++ (if show_filtered_data inp then [st_dataframe subset] else [])
       ++ [st_download_filtered_csv subset;
           st_subheader "📈 Kaplan–Meier Survival Curve"])%list in
  match table with
  | [] =>
      snd run = inl (Exception "cannot convert float NaN to integer")
      /\ page (fst run) = [st_sidebar (sb_title "🔍 Filter Patients")]
  | _ :: _ =>
      exists sidebar,
        Forall (fun el => exists w, el = st_sidebar w) sidebar /\
        match survival_estimator subset (group_by inp) with
        | inl e =>
            snd run = inl e /\ page (fst run) = (sidebar ++ top)%list
        | inr traces =>
            snd run = inr tt
            /\ exists below,
                page (fst run)
                = (sidebar ++ top ++ st_plotly_chart traces
                     :: st_subheader "📊 Cox Proportional Hazards Model"
                     :: below)%list
        end
  end.
Proof.
  intros Hdiag Htreat run subset top.
  destruct table as [|r table].
  - split; reflexivity.
  - destruct (sidebar_stage_returns side (loaded (r :: table)))
      as [sidebar [Hside Hrun]]; try assumption; [discriminate|].
    exists sidebar. split; [exact Hside|].
    assert (Hscript : script side inp (loaded (r :: table))
                      = main inp (mkEnv (r :: table) None None None sidebar)).
    { unfold script, bind. now rewrite Hrun. }
    subst run. rewrite Hscript.
    pose proof (main_from inp (mkEnv (r :: table) None None None sidebar))
      as Hmain.
    cbn [data page] in Hmain. fold subset in Hmain. exact Hmain.
Qed.

End Run.

Lemma script_outcome_witness :
  let side := mkSidebarInputs "I10" "surgical" in
  let inp := mkInputs example_criteria false (Some by_sex) false (Some "E11") in
  In (selected_diag_explain side) (PyDict.keys diag_info) /\
  In (selected_treatment_type side) (PyDict.keys treatment_info) /\
  snd (@script spec_externals side inp (loaded example_table)) = inr tt.
Proof.
  intros side inp.
  assert (Hdiag : In (selected_diag_explain side) (PyDict.keys diag_info)).
  { cbn. tauto. }
  assert (Htreat : In (selected_treatment_type side) (PyDict.keys treatment_info)).
  { cbn. tauto. }
  split; [exact Hdiag|]. split; [exact Htreat|].
  destruct (@script_outcome spec_externals side inp example_table Hdiag Htreat)
    as [sidebar [_ Hrun]].
  exact (proj1 Hrun).
Defined.

(** ** The views below the chart *)

Section Views.

Context {X : Externals}.

Lemma cox_stage_cph (env : Env) (subset : DataFrame) :
  filtered_data env = Some subset ->
  cph (fst (cox_stage env))
  = Some (match cph_fit (preprocess subset) with
          | inl _ => None
          | inr m => Some m
          end).
Proof.
  intros Hsub.
  unfold cox_stage, bind, try_except, emit, read_var, call,
    assign_data_encoded, assign_cph.
  cbn [data filtered_data data_encoded cph page fst snd]. rewrite Hsub.
  cbn [data filtered_data data_encoded cph page fst snd].
  destruct (cph_fit (preprocess subset)) as [e|m]; [reflexivity|].
  cbn [data filtered_data data_encoded cph page fst snd].
  destruct (cph_plot m) as [e|[]]; reflexivity.
Qed.

(** After the Cox stage ran on a bound subset both names the SHAP view reads
    are bound, so it never fails on an unbound name: [data_encoded] is the
    encoded subset and [cph] is the fitter, fitted exactly when the fit
    returned.  The SHAP view does not raise; when its box is ticked it is
    attempted even after a failed fit, with the unfitted fitter, and puts
    under its heading either the plot or the message "SHAP error: ..." of
    the library call; when the box is not ticked it adds nothing. *)
Theorem shap_after_cox (inp : Inputs) (env : Env) (subset : DataFrame) :
  filtered_data env = Some subset ->
  let env1 := fst (cox_stage env) in
  let fitter := match cph_fit (preprocess subset) with
                | inl _ => None
                | inr m => Some m
                end in
  data_encoded env1 = Some (preprocess subset) /\
  cph env1 = Some fitter /\
  snd (shap_stage inp env1) = inr tt /\
  page (fst (shap_stage inp env1))
  = (page env1
       ++ (if show_shap inp
           then [st_subheader "🧠 Feature Importance (SHAP Values)";
                 match shap_summary_plot fitter (preprocess subset) with
                 | inl e => st_error ("SHAP error: " ++ exn_msg e)
                 | inr _ => st_pyplot
                 end]
           else []))%list.
Proof.
  intros Hsub env1 fitter.
  pose proof (cox_stage_data_encoded env subset Hsub) as Henc.
  pose proof (cox_stage_cph env subset Hsub) as Hcph.
  fold env1 in Henc, Hcph. fold fitter in Hcph.
  split; [exact Henc|]. split; [exact Hcph|]. split; [apply shap_stage_returns|].
  unfold shap_stage, bind, try_except, emit, read_var, call, ret.
  destruct (show_shap inp); [|cbn; now rewrite app_nil_r].
  cbn [data filtered_data data_encoded cph page fst snd].
  rewrite Hcph, Henc. cbn [data filtered_data data_encoded cph page fst snd].
  destruct (shap_summary_plot fitter (preprocess subset)) as [e|[]];
    cbn [data filtered_data data_encoded cph page fst snd];
    now rewrite <- app_assoc.
Qed.

Lemma contains_false_get {V} (d : PyDict.dict V) (k : string) :
  PyDict.contains d k = false -> PyDict.get d k = None.
Proof.
  induction d as [|[k' v] d IH]; cbn; [reflexivity|].
  destruct (String.eqb k' k); cbn; [discriminate | assumption].
Qed.

(** The treatment view never raises.  Under its heading it shows the three
    lines of the selected code's entry (condition, treatments and procedures
    joined by ", ") when the code is a key of the map, and nothing at all
    (no message either) when no code is selected or the code is not a key. *)
Theorem treatment_stage_page (inp : Inputs) (env : Env) :
  snd (treatment_stage inp env) = inr tt /\
  page (fst (treatment_stage inp env))
  = (page env
       ++ st_subheader "💊 Suggested Treatments"
       :: match selected_code inp with
          | None => []
          | Some code =>
              match PyDict.get diagnosis_map code with
              | None => []
              | Some (name, treatments, procedures) =>
                  [st_markdown ("**Condition:** " ++ name);
                   st_markdown ("**Recommended Treatments:** "
                                  ++ String.concat ", " treatments);
                   st_markdown ("**Suggested Procedures:** "
                                  ++ String.concat ", " procedures)]
              end
          end)%list /\
  (forall code,
      selected_code inp = Some code ->
      ~ In code (PyDict.keys diagnosis_map) ->
      page (fst (treatment_stage inp env))
      = (page env ++ [st_subheader "💊 Suggested Treatments"])%list).
Proof.
  split; [apply treatment_stage_returns|].
  assert (Hpage : page (fst (treatment_stage inp env))
    = (page env
       ++ st_subheader "💊 Suggested Treatments"
       :: match selected_code inp with
          | None => []
          | Some code =>
              match PyDict.get diagnosis_map code with
              | None => []
              | Some (name, treatments, procedures) =>
                  [st_markdown ("**Condition:** " ++ name);
                   st_markdown ("**Recommended Treatments:** "
                                  ++ String.concat ", " treatments);
                   st_markdown ("**Suggested Procedures:** "
                                  ++ String.concat ", " procedures)]
              end
          end)%list).
  { unfold treatment_stage, bind, emit, call, ret, treatment_lookup.
    destruct (selected_code inp) as [code|]; [|reflexivity].
    destruct (PyDict.contains diagnosis_map code) eqn:Hc.
    - destruct (get_of_contains _ _ Hc) as [[[name treatments] procedures] ->].
      cbn [data filtered_data data_encoded cph page fst snd].
      rewrite <- !app_assoc. reflexivity.
    - rewrite (contains_false_get _ _ Hc). reflexivity. }
  split; [exact Hpage|].
  intros code Hsel Hnot. rewrite Hpage, Hsel.
  destruct (PyDict.contains diagnosis_map code) eqn:Hc.
  - apply contains_keys in Hc. contradiction.
  - now rewrite (contains_false_get _ _ Hc).
Qed.

End Views.

Lemma shap_after_cox_witness :
  let inp := mkInputs example_criteria false None true None in
  let env := @mkEnv spec_externals example_table (Some example_table) None None [] in
  page (fst (@shap_stage spec_externals inp (fst (cox_stage env))))
  = [st_subheader "📊 Cox Proportional Hazards Model";
     st_error "Error fitting Cox model: FitError: rank-deficient design";
     st_subheader "🧠 Feature Importance (SHAP Values)";
     st_error "SHAP error: AttributionError"].
Proof.
  intros inp env.
  exact (proj2 (proj2 (proj2
           (@shap_after_cox spec_externals inp env example_table eq_refl)))).
Defined.

(** ** Sidebar and selectbox options *)

(** The options of the diagnosis selectbox are the table's diagnosis codes,
    each once, in ascending order; there is none exactly when the table is
    empty. *)
Theorem code_options_sorted_unique (table : DataFrame) :
  Sorted str_le (code_options table) /\
  NoDup (code_options table) /\
  (forall code,
      In code (code_options table)
      <-> exists r, In r table /\ diagnosis_code r = code) /\
  (code_options table = [] <-> table = []).
Proof.
  unfold code_options. split; [apply sorted_Sorted|].
  split; [apply sorted_unique_NoDup|]. split.
  - intros code. rewrite sorted_unique_In. unfold Pandas.column.
    rewrite in_map_iff. split; intros [r [H1 H2]]; exists r; tauto.
  - split.
    + intros Hnil. destruct table as [|r table]; [reflexivity|].
      assert (Hin : In (diagnosis_code r)
                       (Pandas.sorted
                          (Pandas.unique
                             (Pandas.column diagnosis_code (r :: table))))).
      { apply sorted_unique_In. now left. }
      rewrite Hnil in Hin. contradiction.
    + now intros ->.
Qed.

(** A glossary box never fails on what its selectbox can return: for every
    key of the dict the line is "**key** — text" with the text stored under
    the key; only a string that is no key raises KeyError.  The diagnosis
    glossary and the treatment map have the same codes in the same order. *)
Theorem glossary_line_of_option :
  (forall (d : PyDict.dict string) sel,
      In sel (PyDict.keys d) ->
      exists text,
        glossary_line d sel = inr ("**" ++ sel ++ "** — " ++ text)
        /\ In (sel, text) d) /\
  (forall (d : PyDict.dict string) sel,
      ~ In sel (PyDict.keys d) ->
      glossary_line d sel = inl (Exception "KeyError")) /\
  PyDict.keys diag_info = PyDict.keys diagnosis_map.
Proof.
  split; [|split].
  - intros d sel Hin. destruct (get_of_key d sel Hin) as [text [Hget Hin']].
    exists text. unfold glossary_line. now rewrite Hget.
  - intros d sel Hnot. unfold glossary_line.
    destruct (PyDict.contains d sel) eqn:Hc.
    + apply contains_keys in Hc. contradiction.
    + now rewrite (contains_false_get _ _ Hc).
  - reflexivity.
Qed.

Lemma glossary_line_of_option_witness :
  In "non-invasive" (PyDict.keys treatment_info) /\
  exists text,
    glossary_line treatment_info "non-invasive"
    = inr ("**non-invasive** — " ++ text).
Proof.
  assert (Hin : In "non-invasive" (PyDict.keys treatment_info)).
  { cbn. tauto. }
  split; [exact Hin|].
  destruct (proj1 glossary_line_of_option treatment_info "non-invasive" Hin)
    as [text [Hline _]].
  exists text. exact Hline.
Defined.

(** ** Risk Model Fitter: the encoded frame *)

Lemma ascii_compare_lt_trans (a b c : ascii) :
  Ascii.compare a b = Lt -> Ascii.compare b c = Lt -> Ascii.compare a c = Lt.
Proof.
  unfold Ascii.compare. rewrite !N.compare_lt_iff. apply N.lt_trans.
Qed.

Lemma string_compare_lt_trans (a b c : string) :
  String.compare a b = Lt -> String.compare b c = Lt -> String.compare a c = Lt.
Proof.
  revert b c. induction a as [|x a IH]; intros [|y b] [|z c]; cbn;
    try discriminate; try reflexivity.
  destruct (Ascii.compare x y) eqn:Hxy; try discriminate.
  - apply Ascii.compare_eq_iff in Hxy. subst y.
    destruct (Ascii.compare x z) eqn:Hxz; try discriminate; [|reflexivity].
    apply IH.
  - intros _. destruct (Ascii.compare y z) eqn:Hyz; try discriminate.
    + apply Ascii.compare_eq_iff in Hyz. subst z. now rewrite Hxy.
    + intros _. now rewrite (ascii_compare_lt_trans x y z Hxy Hyz).
Qed.

Lemma str_le_trans (a b c : string) : str_le a b -> str_le b c -> str_le a c.
Proof.
  unfold str_le, String.leb.
  destruct (String.compare a b) eqn:Hab; try discriminate; intros _.
  - apply String.compare_eq_iff in Hab. now subst b.
  - destruct (String.compare b c) eqn:Hbc; try discriminate; intros _.
    + apply String.compare_eq_iff in Hbc. subst c. now rewrite Hab.
    + now rewrite (string_compare_lt_trans a b c Hab Hbc).
Qed.

(** A sorted list without repeats is determined by its elements. *)
Lemma sorted_nodup_unique (l1 l2 : list string) :
  Sorted str_le l1 -> Sorted str_le l2 -> NoDup l1 -> NoDup l2 ->
  (forall x, In x l1 <-> In x l2) -> l1 = l2.
Proof.
  intros S1 S2. apply Sorted_StronglySorted in S1; [|exact str_le_trans].
  apply Sorted_StronglySorted in S2; [|exact str_le_trans].
  revert l2 S2. induction S1 as [|a l1 S1 IH Ha]; intros l2 S2 N1 N2 Hsame.
  - destruct l2 as [|b l2]; [reflexivity|].
    exfalso. apply (proj2 (Hsame b)). now left.
  - destruct l2 as [|b l2].
    { exfalso. apply (proj1 (Hsame a)). now left. }
    inversion S2 as [|? ? S2' Hb]; subst.
    inversion N1 as [|? ? Hna N1']; subst. inversion N2 as [|? ? Hnb N2']; subst.
    assert (Hab : a = b).
    { destruct (proj1 (Hsame a) (or_introl eq_refl)) as [->|Hin]; [reflexivity|].
      destruct (proj2 (Hsame b) (or_introl eq_refl)) as [->|Hin']; [reflexivity|].
      apply String.leb_antisym.
      - exact (proj1 (Forall_forall _ _) Ha b Hin').
      - exact (proj1 (Forall_forall _ _) Hb a Hin). }
    subst b. f_equal. apply IH; try assumption.
    intros x. split; intros Hx.
    + destruct (proj1 (Hsame x) (or_intror Hx)) as [->|H]; [contradiction | exact H].
    + destruct (proj2 (Hsame x) (or_intror Hx)) as [->|H]; [contradiction | exact H].
Qed.

(** The levels of a column depend on the values that occur in it, not on
    their order or number. *)
Lemma levels_same_values (s1 s2 : list string) :
  (forall x, In x s1 <-> In x s2) -> GetDummies.levels s1 = GetDummies.levels s2.
Proof.
  intros Hsame. unfold GetDummies.levels.
  apply sorted_nodup_unique; try apply sorted_Sorted; try apply sorted_unique_NoDup.
  intros x. now rewrite !sorted_unique_In.
Qed.

Lemma kept_levels_perm (s1 s2 : list string) :
  Permutation s1 s2 -> GetDummies.kept_levels s1 = GetDummies.kept_levels s2.
Proof.
  intros Hperm. unfold GetDummies.kept_levels. f_equal.
  apply levels_same_values. intros x. split; apply Permutation_in;
    [assumption | now apply Permutation_sym].
Qed.

Lemma kept_levels_NoDup (s : list string) : NoDup (GetDummies.kept_levels s).
Proof.
  unfold GetDummies.kept_levels, GetDummies.levels.
  pose proof (sorted_unique_NoDup s) as H.
  destruct (Pandas.sorted (Pandas.unique s)); cbn; [constructor | now inversion H].
Qed.

Lemma eqb_app_prefix (p a b : string) :
  String.eqb (p ++ a) (p ++ b) = String.eqb a b.
Proof.
  induction p as [|c p IH]; cbn; [reflexivity|].
  now rewrite Ascii.eqb_refl.
Qed.

Lemma dummy_name_inj (field a b : string) :
  (field ++ "_" ++ a)%string = (field ++ "_" ++ b)%string -> a = b.
Proof.
  intros H. apply String.eqb_eq.
  rewrite <- (eqb_app_prefix "_"), <- (eqb_app_prefix field).
  now apply String.eqb_eq.
Qed.

Lemma NoDup_map_inj {A B} (f : A -> B) (l : list A) :
  (forall x y, f x = f y -> x = y) -> NoDup l -> NoDup (map f l).
Proof.
  intros Hinj. induction 1 as [|x l Hnin Hnd IH]; cbn; constructor; [|assumption].
  intros Hin. apply in_map_iff in Hin. destruct Hin as [y [Heq Hy]].
  apply Hinj in Heq. now subst.
Qed.

Lemma dummy_names_NoDup (field : string) (s : list string) :
  NoDup (GetDummies.dummy_names field s).
Proof.
  unfold GetDummies.dummy_names. apply NoDup_map_inj.
  - intros a b. apply dummy_name_inj.
  - apply kept_levels_NoDup.
Qed.

Lemma cell_of_app (l1 l2 : list string) (r1 r2 : list Z) (name : string) :
  List.length l1 = List.length r1 ->
  cell_of (l1 ++ l2) (r1 ++ r2) name
  = match cell_of l1 r1 name with
    | Some v => Some v
    | None => cell_of l2 r2 name
    end.
Proof.
  revert r1. induction l1 as [|c l1 IH]; intros [|v r1]; cbn; try discriminate.
  - reflexivity.
  - intros [= Hlen]. destruct (String.eqb c name); [reflexivity | now apply IH].
Qed.

(** Within the indicator columns of a field, the column of a level holds 1
    exactly in the rows whose value is that level; a level without a column
    has no cell. *)
Lemma cell_of_dummies (field : string) (s : list string) (x lv : string) :
  cell_of (GetDummies.dummy_names field s) (GetDummies.dummy_cells s x)
          (field ++ "_" ++ lv)
  = if Pandas.isin1 (GetDummies.kept_levels s) lv
    then Some (Z.b2z (String.eqb x lv)) else None.
Proof.
  unfold GetDummies.dummy_names, GetDummies.dummy_cells, Pandas.isin1.
  induction (GetDummies.kept_levels s) as [|k K IH]; cbn [map cell_of existsb];
    [reflexivity|].
  rewrite (eqb_app_prefix field ("_" ++ k) ("_" ++ lv)), (eqb_app_prefix "_" k lv).
  rewrite (String.eqb_sym lv k).
  destruct (String.eqb_spec k lv) as [->|Hne]; cbn [orb]; [reflexivity | exact IH].
Qed.

Lemma cell_of_other_field (field : string) (s : list string) (x name : string) :
  (forall k, String.eqb (field ++ "_" ++ k) name = false) ->
  cell_of (GetDummies.dummy_names field s) (GetDummies.dummy_cells s x) name = None.
Proof.
  intros Hno. unfold GetDummies.dummy_names, GetDummies.dummy_cells.
  induction (GetDummies.kept_levels s) as [|k K IH]; cbn [map cell_of];
    [reflexivity|].
  now rewrite Hno.
Qed.

Lemma dummy_lengths (field : string) (s : list string) (x : string) :
  List.length (GetDummies.dummy_names field s)
  = List.length (GetDummies.dummy_cells s x).
Proof.
  unfold GetDummies.dummy_names, GetDummies.dummy_cells. now rewrite !length_map.
Qed.

(** The encoded row of a record of the subset. *)
Lemma preprocess_rows (subset : DataFrame) :
  enc_rows (preprocess subset)
  = map (fun r =>
           [age r; duration r; Z.b2z (event r)]
             ++ GetDummies.dummy_cells (Pandas.column sex subset) (sex r)
             ++ GetDummies.dummy_cells (Pandas.column diagnosis_code subset)
                                       (diagnosis_code r)
             ++ GetDummies.dummy_cells (Pandas.column treatment_type subset)
                                       (treatment_type r))%list
        subset.
Proof.
  unfold preprocess, GetDummies.get_dummies_drop_first, drop_patient_id,
    Pandas.column. cbn [enc_rows]. rewrite !map_map. reflexivity.
Qed.

Lemma preprocess_columns (subset : DataFrame) :
  enc_columns (preprocess subset)
  = (["age"; "duration"; "event"]
       ++ GetDummies.dummy_names "sex" (Pandas.column sex subset)
       ++ GetDummies.dummy_names "diagnosis_code"
                                 (Pandas.column diagnosis_code subset)
       ++ GetDummies.dummy_names "treatment_type"
                                 (Pandas.column treatment_type subset))%list.
Proof.
  unfold preprocess, GetDummies.get_dummies_drop_first, drop_patient_id,
    Pandas.column. cbn [enc_columns]. now rewrite !map_map.
Qed.

Lemma preprocess_columns_NoDup (subset : DataFrame) :
  NoDup (enc_columns (preprocess subset)).
Proof.
  rewrite preprocess_columns.
  assert (Hdummy : forall field s name,
             In name (GetDummies.dummy_names field s) ->
             exists lv, name = (field ++ "_" ++ lv)%string).
  { intros field s name Hin. unfold GetDummies.dummy_names in Hin.
    apply in_map_iff in Hin. destruct Hin as [lv [<- _]]. now exists lv. }
  apply NoDup_app.
  - repeat constructor; cbn; intuition discriminate.
  - apply NoDup_app; [apply dummy_names_NoDup| |].
    + apply NoDup_app; try apply dummy_names_NoDup.
      intros name H1 H2. apply Hdummy in H1, H2.
      destruct H1 as [lv1 ->], H2 as [lv2 H2]. discriminate.
    + intros name H1 H2. apply Hdummy in H1. destruct H1 as [lv1 ->].
      apply in_app_or in H2. destruct H2 as [H2|H2];
        apply Hdummy in H2; destruct H2 as [lv2 H2]; discriminate.
  - intros name H1 H2.
    assert (Hex : exists field lv, name = (field ++ "_" ++ lv)%string
                   /\ (field = "sex" \/ field = "diagnosis_code"
                       \/ field = "treatment_type")).
    { apply in_app_or in H2. destruct H2 as [H2|H2].
      - apply Hdummy in H2. destruct H2 as [lv ->]. eauto.
      - apply in_app_or in H2. destruct H2 as [H2|H2];
          apply Hdummy in H2; destruct H2 as [lv ->]; eauto 6. }
    destruct Hex as [field [lv [-> Hfield]]].
    cbn in H1. destruct Hfield as [-> | [-> | ->]];
      repeat (destruct H1 as [H1|H1]; [discriminate|]); contradiction.
Qed.

(** The cells of the encoded row of a record, by column name. *)
Lemma preprocess_cells (subset : DataFrame) (r : PatientRecord) :
  let row :=
    ([age r; duration r; Z.b2z (event r)]
       ++ GetDummies.dummy_cells (Pandas.column sex subset) (sex r)
       ++ GetDummies.dummy_cells (Pandas.column diagnosis_code subset)
                                 (diagnosis_code r)
       ++ GetDummies.dummy_cells (Pandas.column treatment_type subset)
                                 (treatment_type r))%list in
  let columns := enc_columns (preprocess subset) in
  List.length row = List.length columns /\
  cell_of columns row "age" = Some (age r) /\
  cell_of columns row "duration" = Some (duration r) /\
  cell_of columns row "event" = Some (Z.b2z (event r)) /\
  (forall lv,
      cell_of columns row ("sex_" ++ lv)
      = if Pandas.isin1 (GetDummies.kept_levels (Pandas.column sex subset)) lv
        then Some (Z.b2z (String.eqb (sex r) lv)) else None) /\
  (forall lv,
      cell_of columns row ("diagnosis_code_" ++ lv)
      = if Pandas.isin1
             (GetDummies.kept_levels (Pandas.column diagnosis_code subset)) lv
        then Some (Z.b2z (String.eqb (diagnosis_code r) lv)) else None) /\
  (forall lv,
      cell_of columns row ("treatment_type_" ++ lv)
      = if Pandas.isin1
             (GetDummies.kept_levels (Pandas.column treatment_type subset)) lv
        then Some (Z.b2z (String.eqb (treatment_type r) lv)) else None).
Proof.
  intros row columns. subst row columns. rewrite preprocess_columns.
  split; [|split; [|split; [|split; [|split; [|split]]]]];
    try reflexivity.
  - rewrite !length_app. unfold GetDummies.dummy_names, GetDummies.dummy_cells.
    now rewrite !length_map.
  - intros lv. rewrite cell_of_app by reflexivity.
    change (cell_of ["age"; "duration"; "event"]
                    [age r; duration r; Z.b2z (event r)] ("sex_" ++ lv))
      with (@None Z).
    rewrite cell_of_app by apply dummy_lengths.
    change ("sex_" ++ lv)%string with ("sex" ++ "_" ++ lv)%string.
    rewrite cell_of_dummies.
    destruct (Pandas.isin1 _ lv); [reflexivity|].
    rewrite cell_of_app by apply dummy_lengths.
    rewrite !cell_of_other_field; reflexivity.
  - intros lv. rewrite cell_of_app by reflexivity.
    change (cell_of ["age"; "duration"; "event"]
                    [age r; duration r; Z.b2z (event r)]
                    ("diagnosis_code_" ++ lv))
      with (@None Z).
    rewrite cell_of_app by apply dummy_lengths.
    rewrite (cell_of_other_field "sex") by reflexivity.
    rewrite cell_of_app by apply dummy_lengths.
    change ("diagnosis_code_" ++ lv)%string
      with ("diagnosis_code" ++ "_" ++ lv)%string.
    rewrite cell_of_dummies.
    destruct (Pandas.isin1 _ lv); [reflexivity|].
    rewrite cell_of_other_field; reflexivity.
  - intros lv. rewrite cell_of_app by reflexivity.
    change (cell_of ["age"; "duration"; "event"]
                    [age r; duration r; Z.b2z (event r)]
                    ("treatment_type_" ++ lv))
      with (@None Z).
    rewrite cell_of_app by apply dummy_lengths.
    rewrite (cell_of_other_field "sex") by reflexivity.
    rewrite cell_of_app by apply dummy_lengths.
    rewrite (cell_of_other_field "diagnosis_code") by reflexivity.
    change ("treatment_type_" ++ lv)%string
      with ("treatment_type" ++ "_" ++ lv)%string.
    apply cell_of_dummies.
Qed.

(** Reordering the rows reorders the encoded rows and nothing else. *)
Lemma get_dummies_perm (d1 d2 : list CovariateRow) :
  Permutation d1 d2 ->
  enc_columns (GetDummies.get_dummies_drop_first d1)
  = enc_columns (GetDummies.get_dummies_drop_first d2)
  /\ Permutation (enc_rows (GetDummies.get_dummies_drop_first d1))
                 (enc_rows (GetDummies.get_dummies_drop_first d2)).
Proof.
  intros Hperm.
  unfold GetDummies.get_dummies_drop_first, GetDummies.dummy_names,
    GetDummies.dummy_cells. cbn [enc_columns enc_rows].
  rewrite (kept_levels_perm _ _ (Permutation_map cov_sex Hperm)).
  rewrite (kept_levels_perm _ _ (Permutation_map cov_diagnosis_code Hperm)).
  rewrite (kept_levels_perm _ _ (Permutation_map cov_treatment_type Hperm)).
  split; [reflexivity | now apply Permutation_map].
Qed.

(** C8.  Take two runs of the Cox stage, in any state and with any
    estimators, whose filtered subsets hold the same rows once the patient
    identifier is dropped, in any order.  Each binds [data_encoded] to the
    encoding of its subset; the two frames have the same columns in the same
    order and the same rows up to the order of the subsets, and they are
    equal when the subsets agree row by row.  The columns are age, duration
    and event followed by the indicator columns of sex, diagnosis code and
    treatment type; the indicators of a field stand for its levels in sorted
    order without the first one, so one fewer than its distinct values; no
    two columns share a name and none is the patient identifier.  The rows
    follow the subset; a row has one cell per column: the record's age,
    duration and event under those names, and under the indicator of a level
    1 when the record's value is that level and 0 otherwise; a level without
    a column (the reference level, or one absent from the subset) has no
    cell. *)
Theorem preprocessing_deterministic
        (X1 X2 : Externals) (env1 : @Env X1) (env2 : @Env X2) (s1 s2 : DataFrame) :
  filtered_data env1 = Some s1 ->
  filtered_data env2 = Some s2 ->
  Permutation (drop_patient_id s1) (drop_patient_id s2) ->
  data_encoded (fst (cox_stage env1)) = Some (preprocess s1) /\
  data_encoded (fst (cox_stage env2)) = Some (preprocess s2) /\
  enc_columns (preprocess s1) = enc_columns (preprocess s2) /\
  Permutation (enc_rows (preprocess s1)) (enc_rows (preprocess s2)) /\
  (drop_patient_id s1 = drop_patient_id s2 -> preprocess s1 = preprocess s2) /\
  enc_columns (preprocess s1)
  = (["age"; "duration"; "event"]
       ++ GetDummies.dummy_names "sex" (Pandas.column sex s1)
       ++ GetDummies.dummy_names "diagnosis_code" (Pandas.column diagnosis_code s1)
       ++ GetDummies.dummy_names "treatment_type" (Pandas.column treatment_type s1))%list /\
  (forall s, Sorted str_le (GetDummies.kept_levels s)
             /\ GetDummies.kept_levels s = tl (Pandas.sorted (Pandas.unique s))
             /\ List.length (GetDummies.kept_levels s)
                = (List.length (Pandas.unique s) - 1)%nat) /\
  NoDup (enc_columns (preprocess s1)) /\
  ~ In "patient_id" (enc_columns (preprocess s1)) /\
  exists row_of : PatientRecord -> list Z,
    enc_rows (preprocess s1) = map row_of s1 /\
    forall r,
      List.length (row_of r) = List.length (enc_columns (preprocess s1)) /\
      cell_of (enc_columns (preprocess s1)) (row_of r) "age" = Some (age r) /\
      cell_of (enc_columns (preprocess s1)) (row_of r) "duration"
      = Some (duration r) /\
      cell_of (enc_columns (preprocess s1)) (row_of r) "event"
      = Some (Z.b2z (event r)) /\
      (forall lv,
          cell_of (enc_columns (preprocess s1)) (row_of r) ("sex_" ++ lv)
          = if Pandas.isin1 (GetDummies.kept_levels (Pandas.column sex s1)) lv
            then Some (Z.b2z (String.eqb (sex r) lv)) else None) /\
      (forall lv,
          cell_of (enc_columns (preprocess s1)) (row_of r)
                  ("diagnosis_code_" ++ lv)
          = if Pandas.isin1
                 (GetDummies.kept_levels (Pandas.column diagnosis_code s1)) lv
            then Some (Z.b2z (String.eqb (diagnosis_code r) lv)) else None) /\
      (forall lv,
          cell_of (enc_columns (preprocess s1)) (row_of r)
                  ("treatment_type_" ++ lv)
          = if Pandas.isin1
                 (GetDummies.kept_levels (Pandas.column treatment_type s1)) lv
            then Some (Z.b2z (String.eqb (treatment_type r) lv)) else None).
Proof.
  intros H1 H2 Hperm.
  destruct (get_dummies_perm _ _ Hperm) as [Hcols Hrows].
  split; [exact (cox_stage_data_encoded env1 s1 H1)|].
  split; [exact (cox_stage_data_encoded env2 s2 H2)|].
  split; [exact Hcols|]. split; [exact Hrows|].
  split; [intros Hsame; unfold preprocess; now rewrite Hsame|].
  split; [apply preprocess_columns|].
  split.
  { intros s. split; [|split].
    - apply Sorted_tl, sorted_Sorted.
    - reflexivity.
    - apply kept_levels_length. }
  split; [apply preprocess_columns_NoDup|].
  split.
  { rewrite preprocess_columns. intros Hin.
    apply in_app_or in Hin. destruct Hin as [Hin|Hin].
    { cbn in Hin. repeat (destruct Hin as [Hin|Hin]; [discriminate|]). contradiction. }
    apply in_app_or in Hin. destruct Hin as [Hin|Hin].
    { revert Hin. apply patient_id_not_dummy. auto. }
    apply in_app_or in Hin. destruct Hin as [Hin|Hin];
      revert Hin; apply patient_id_not_dummy; auto. }
  eexists. split; [apply preprocess_rows|].
  intros r. apply (preprocess_cells s1 r).
Qed.

Lemma preprocessing_deterministic_witness :
  let reordered :=
    rev (map (fun r => mkPatient (patient_id r + 100) (age r) (sex r)
                         (diagnosis_code r) (treatment_type r)
                         (duration r) (event r)) example_table) in
  let env1 := @mkEnv spec_externals example_table (Some example_table) None None [] in
  let env2 := @mkEnv lifelines_externals reordered (Some reordered) None None
                [st_title "second run"] in
  Permutation (drop_patient_id example_table) (drop_patient_id reordered) /\
  enc_columns (preprocess reordered)
  = ["age"; "duration"; "event"; "sex_M"; "diagnosis_code_I10";
     "diagnosis_code_J44"; "treatment_type_medical"; "treatment_type_surgical"] /\
  Permutation (enc_rows (preprocess example_table))
              (enc_rows (preprocess reordered)).
Proof.
  intros reordered env1 env2.
  assert (Hperm : Permutation (drop_patient_id example_table)
                              (drop_patient_id reordered)).
  { exact (Permutation_rev (drop_patient_id example_table)). }
  destruct (preprocessing_deterministic spec_externals lifelines_externals
              env1 env2 example_table reordered eq_refl eq_refl Hperm)
    as [_ [_ [Hcols [Hrows _]]]].
  split; [exact Hperm|]. split; [|exact Hrows].
  rewrite <- Hcols. reflexivity.
Defined.
